(** * HCP interaction log: a shallow embedding of [main.py]

    The backend is a FastAPI module with a four-node LangGraph pipeline
    (route_intent, extract, compliance, respond), seven tools and a small
    SQLAlchemy table.  This development embeds the tools, the nodes and the
    endpoints as Rocq functions and proves the properties the specification
    states about them.

    Conventions:
    - a Python [str] is a list of Unicode code points, so that slices such
      as [text[:180]] count characters and not bytes;
    - a value decoded from JSON (and any [Dict[str, Any]]) is a [json];
      a dict keeps its insertion order and is an association list;
    - a Python call that may raise returns a [result];
    - the interpreter's library ([json], [str.lower], [datetime]) and the
      remote completion service are parameters: the class [Runtime] and the
      section variable [Groq]. *)

From stdpp Require Import base list option numbers strings.
From Stdlib Require Import ZArith NArith String Ascii DecimalString Lia.

Open Scope Z_scope.

(** ** Python strings *)

Abbreviation str := (list N).

(** An ASCII literal of the source, as code points. *)
Definition lit (s : string) : str := N_of_ascii <$> list_ascii_of_string s.

Definition is_ascii (c : N) : Prop := (c < 128)%N.

(** [str.lower] on an ASCII code point. *)
Definition ascii_lower (c : N) : N :=
  if decide (65 <= c <= 90)%N then (c + 32)%N else c.

(** [needle in hay] for strings: [needle] occurs as a contiguous block. *)
Fixpoint starts_with (needle hay : str) : bool :=
  match needle, hay with
  | [], _ => true
  | _ :: _, [] => false
  | a :: needle', b :: hay' => bool_decide (a = b) && starts_with needle' hay'
  end.

Fixpoint str_contains (needle hay : str) : bool :=
  starts_with needle hay ||
  match hay with
  | [] => false
  | _ :: hay' => str_contains needle hay'
  end.

(** [s.replace(old, new)] where [old] is a single character. *)
Definition str_replace_char (old : N) (new : str) (s : str) : str :=
  s ≫= (λ c, if decide (c = old) then new else [c]).

(** [sep.join(parts)] on a list of strings. *)
Fixpoint str_join (sep : str) (parts : list str) : str :=
  match parts with
  | [] => []
  | [p] => p
  | p :: rest => p ++ sep ++ str_join sep rest
  end.

(** ** Values *)

(** A Python float: a dyadic number, an infinity or a NaN.  The code never
    computes with one; only its truth value matters. *)
Inductive pyfloat :=
| FFinite (mantissa exponent : Z)
| FInf (negative : bool)
| FNaN.

(** What [json.loads] can return, and what a [Dict[str, Any]] can hold. *)
#[warnings="-register-all"]
Inductive json :=
| JNull
| JBool (b : bool)
| JInt (z : Z)
| JFloat (f : pyfloat)
| JStr (s : str)
| JArr (items : list json)
| JObj (items : list (str * json)).

Abbreviation dict := (list (str * json)).

#[global] Instance pyfloat_eq_dec : EqDecision pyfloat.
Proof. solve_decision. Defined.

(** Structural equality of values is decidable. *)
#[global] Instance json_eq_dec : EqDecision json.
Proof.
  refine (fix go (a b : json) {struct a} : Decision (a = b) :=
    match a, b with
    | JNull, JNull => left eq_refl
    | JBool x, JBool y => cast_if (decide (x = y))
    | JInt x, JInt y => cast_if (decide (x = y))
    | JFloat x, JFloat y => cast_if (decide (x = y))
    | JStr x, JStr y => cast_if (decide (x = y))
    | JArr x, JArr y =>
        cast_if ((fix items (l m : list json) {struct l} : Decision (l = m) :=
                    match l, m with
                    | [], [] => left eq_refl
                    | v :: l', w :: m' => cast_if_and (go v w) (items l' m')
                    | _, _ => right _
                    end) x y)
    | JObj x, JObj y =>
        cast_if ((fix items (l m : list (str * json)) {struct l} : Decision (l = m) :=
                    match l, m with
                    | [], [] => left eq_refl
                    | (k, v) :: l', (k', w) :: m' =>
                        cast_if_and3 (decide (k = k')) (go v w) (items l' m')
                    | _, _ => right _
                    end) x y)
    | _, _ => right _
    end); congruence.
Defined.

(** Python's truth value of an object. *)
Definition truthy (v : json) : bool :=
  match v with
  | JNull => false
  | JBool b => b
  | JInt z => negb (z =? 0)
  | JFloat (FFinite m _) => negb (m =? 0)
  | JFloat _ => true
  | JStr s => negb (bool_decide (s = []))
  | JArr l => match l with [] => false | _ => true end
  | JObj l => match l with [] => false | _ => true end
  end.

(** [a or b]. *)
Definition py_or (a b : json) : json := if truthy a then a else b.

(** ** Exceptions *)

Inductive exn :=
| HTTPException (status_code : Z) (detail : str)
| AttributeError
| TypeError
| KeyError
| APIError
| SQLAlchemyError.

Inductive result (A : Type) :=
| Ok (a : A)
| Raise (e : exn).
Arguments Ok {A} a.
Arguments Raise {A} e.

#[global] Instance result_ret : MRet result := λ A a, Ok a.
#[global] Instance result_bind : MBind result := λ A B f m,
  match m with
  | Ok a => f a
  | Raise e => Raise e
  end.

(** ** Dicts *)

(** The binding of [k], if any. *)
Fixpoint dict_lookup (k : str) (d : dict) : option json :=
  match d with
  | [] => None
  | (k', v) :: d' => if decide (k' = k) then Some v else dict_lookup k d'
  end.

(** [d[k] = v]: overwrite in place, or append a new key. *)
Fixpoint dict_set (k : str) (v : json) (d : dict) : dict :=
  match d with
  | [] => [(k, v)]
  | (k', v') :: d' =>
      if decide (k' = k) then (k, v) :: d' else (k', v') :: dict_set k v d'
  end.

(** [d.get(k, dflt)] on a dict. *)
Definition dict_get (k : str) (dflt : json) (d : dict) : json :=
  default dflt (dict_lookup k d).

(** [o.get(k, dflt)] on any object: only a dict has the method. *)
Definition py_get (o : json) (k : str) (dflt : json) : result json :=
  match o with
  | JObj d => Ok (dict_get k dflt d)
  | _ => Raise AttributeError
  end.

(** [x == ["parse_error"]]: a list of exactly that one string. *)
Definition eq_parse_error_list (x : json) : bool :=
  match x with
  | JArr [JStr s] => bool_decide (s = lit "parse_error")
  | _ => false
  end.

(** [sep.join(x)]: [x] must be iterable and yield strings.  A list yields
    its items, a string its characters, a dict its keys. *)
Fixpoint strings_of (items : list json) : option (list str) :=
  match items with
  | [] => Some []
  | JStr s :: rest => (s ::.) <$> strings_of rest
  | _ :: _ => None
  end.

Definition py_join (sep : str) (x : json) : result str :=
  match x with
  | JArr items =>
      match strings_of items with
      | Some parts => Ok (str_join sep parts)
      | None => Raise TypeError
      end
  | JStr s => Ok (str_join sep ((λ c, [c]) <$> s))
  | JObj d => Ok (str_join sep (fst <$> d))
  | _ => Raise TypeError
  end.

(** ** datetime *)

(** [tzinfo] is the UTC offset in microseconds; [None] is a naive value. *)
Record datetime := {
  year : Z; month : Z; day : Z;
  hour : Z; minute : Z; second : Z; microsecond : Z;
  tzinfo : option Z
}.

#[global] Instance datetime_eq_dec : EqDecision datetime.
Proof. solve_decision. Defined.

(** [dt.replace(tzinfo=None)]. *)
Definition replace_tzinfo_none (d : datetime) : datetime :=
  {| year := year d; month := month d; day := day d;
     hour := hour d; minute := minute d; second := second d;
     microsecond := microsecond d; tzinfo := None |}.

(** [%0<width>d] of a natural number. *)
Definition pad (width : nat) (n : Z) : str :=
  let digits := lit (NilZero.string_of_uint (N.to_uint (Z.to_N n))) in
  replicate (width - List.length digits)%nat 48%N ++ digits.

Definition format_offset (off : Z) : str :=
  let sign := if decide (off < 0) then lit "-" else lit "+" in
  let a := Z.abs off in
  let hh := a / 3600000000 in
  let mm := (a mod 3600000000) / 60000000 in
  let ss := (a mod 60000000) / 1000000 in
  let us := a mod 1000000 in
  sign ++ pad 2 hh ++ lit ":" ++ pad 2 mm ++
  (if decide (ss = 0 ∧ us = 0) then []
   else lit ":" ++ pad 2 ss ++
        (if decide (us = 0) then [] else lit "." ++ pad 6 us)).

(** [dt.isoformat()]. *)
Definition isoformat (d : datetime) : str :=
  pad 4 (year d) ++ lit "-" ++ pad 2 (month d) ++ lit "-" ++ pad 2 (day d) ++
  lit "T" ++
  pad 2 (hour d) ++ lit ":" ++ pad 2 (minute d) ++ lit ":" ++ pad 2 (second d) ++
  (if decide (microsecond d = 0) then [] else lit "." ++ pad 6 (microsecond d)) ++
  match tzinfo d with
  | Some off => format_offset off
  | None => []
  end.

(** ** The interpreter's library *)

(** The library functions [main.py] calls and whose code is not part of
    the repository.  [None] stands for a raised exception. *)
Class Runtime := {
  (** [str.lower]; on ASCII text it lowers the letters A-Z. *)
  py_lower : str → str;
  py_lower_ascii : ∀ s, Forall is_ascii s → py_lower s = ascii_lower <$> s;
  (** [json.loads], [json.dumps(_, ensure_ascii=False)]. *)
  json_loads : str → option json;
  json_dumps : json → str;
  (** [str(v)] for a [v] that is not a string, as an f-string prints it. *)
  py_repr : json → str;
  (** [datetime.fromisoformat]. *)
  fromisoformat : str → option datetime
}.

(** [f"{v}"]. *)
Definition format_value `{Runtime} (v : json) : str :=
  match v with
  | JStr s => s
  | _ => py_repr v
  end.

(** [v.lower()]: only a string has the method. *)
Definition method_lower `{Runtime} (v : json) : result str :=
  match v with
  | JStr s => Ok (py_lower s)
  | _ => Raise AttributeError
  end.

(** ** Characters of the source that are not ASCII or need escaping *)

Definition nl : str := [10%N].
Definition dq : str := [34%N].
Definition check_mark : str := [9989%N].          (* U+2705 *)
Definition bullet : str := [8226%N].              (* U+2022 *)
Definition warning_sign : str := [9888%N; 65039%N]. (* U+26A0 U+FE0F *)

(** A key or a string constant between double quotes inside a prompt. *)
Definition quoted (s : string) : str := dq ++ lit s ++ dq.

(** ** The agent: configuration, tools and graph nodes *)

(** The remote completion service behind [client.chat.completions.create]:
    model, system prompt and user prompt give the content of the first
    choice ([None] when the service returns no content), or the call
    raises. *)
Definition Completion : Type := str → str → str → result (option str).

(** [AgentState], a [TypedDict] with [total=False]: every key may be
    absent. *)
Record AgentState := {
  thread_id : option str;
  user_message : option str;
  intent : option str;
  extracted : option json;
  compliance : option json;
  assistant_message : option str
}.

Definition set_intent (v : str) (st : AgentState) : AgentState :=
  {| thread_id := thread_id st; user_message := user_message st;
     intent := Some v; extracted := extracted st;
     compliance := compliance st; assistant_message := assistant_message st |}.

Definition set_extracted (v : json) (st : AgentState) : AgentState :=
  {| thread_id := thread_id st; user_message := user_message st;
     intent := intent st; extracted := Some v;
     compliance := compliance st; assistant_message := assistant_message st |}.

Definition set_compliance (v : json) (st : AgentState) : AgentState :=
  {| thread_id := thread_id st; user_message := user_message st;
     intent := intent st; extracted := extracted st;
     compliance := Some v; assistant_message := assistant_message st |}.

Definition set_assistant_message (v : str) (st : AgentState) : AgentState :=
  {| thread_id := thread_id st; user_message := user_message st;
     intent := intent st; extracted := extracted st;
     compliance := compliance st; assistant_message := Some v |}.

(** [state[k]] and [state.get(k)] on an optional key. *)
Definition state_item {A} (field : option A) : result A :=
  match field with
  | Some v => Ok v
  | None => Raise KeyError
  end.

Definition state_get (field : option json) : json := default JNull field.

(** [ChatReq]. *)
Record ChatReq := {
  req_thread_id : option str;
  req_message : str
}.

(** The two recommendations of the advisor. *)
Definition nba_message : str :=
  lit "Send a balanced follow-up message with approved materials and confirm next meeting date.".
Definition nba_visit : str :=
  lit "Schedule a follow-up visit/call and share approved clinical summary + address any objections.".

(** The fixed parts of the assistant message. *)
Definition msg_ack : str :=
  check_mark ++ lit " I extracted a draft interaction and filled the form fields." ++ nl.
Definition msg_nba (nba : str) : str :=
  bullet ++ lit " Next best action: " ++ nba ++ nl.
Definition warning_marker : str := warning_sign ++ lit " Compliance flags (".
Definition msg_warning (sev joined : str) : str :=
  warning_marker ++ sev ++ lit "): " ++ joined ++ nl.
Definition msg_save : str :=
  lit "If this looks correct, click **Save Interaction** in the UI. If not, edit the fields and save.".

(** The system prompts. *)
Definition compliance_system : str :=
  lit "You are a pharma compliance checker. Return strict JSON only:" ++ nl ++
  lit "{ " ++ quoted "flags" ++ lit ": [..], " ++
  quoted "severity" ++ lit ": " ++ quoted "low|medium|high" ++ lit ", " ++
  quoted "notes" ++ lit ": " ++ quoted "..." ++ lit " }." ++ nl ++
  lit "Flags examples: off_label, promotion_to_patient, safety_missing, unbalanced_claim, competitor_bashing, pii_risk." ++ nl.

Definition empty_field (k : string) : str := quoted k ++ lit ":" ++ dq ++ dq.

Definition extract_system : str :=
  lit "You are an expert life-sciences CRM assistant for field reps." ++ nl ++
  lit "Return STRICT JSON only with keys:" ++ nl ++
  lit "{ " ++ quoted "summary" ++ lit ":" ++ quoted "..." ++ lit ", " ++
  quoted "entities" ++ lit ": { " ++
  empty_field "hcp_name" ++ lit ", " ++ empty_field "specialty" ++ lit ", " ++
  empty_field "organization" ++ lit ", " ++ empty_field "channel" ++ lit ", " ++
  empty_field "purpose" ++ lit ", " ++ empty_field "products_discussed" ++ lit ", " ++
  empty_field "key_points" ++ lit ", " ++ empty_field "outcome" ++ lit ", " ++
  empty_field "next_steps" ++ lit ", " ++ empty_field "follow_up_date" ++
  lit " } }" ++ nl ++
  lit "Rules:" ++ nl ++
  lit "- Keep summary <= 3 lines." ++ nl ++
  lit "- If a field is missing, keep it empty." ++ nl ++
  lit "- channel must be one of: in_person, call, video, email, whatsapp, other." ++ nl ++
  lit "- follow_up_date should be YYYY-MM-DD if possible." ++ nl.

(** The user prompts. *)
Definition compliance_prompt (text : str) : str :=
  lit "Text:" ++ nl ++ text ++ nl ++ lit "Return JSON only.".
Definition extract_prompt (text : str) : str :=
  lit "Interaction text:" ++ nl ++ text ++ nl ++ lit "Return JSON only.".

Section Backend.
Context `{Runtime}.

(** Process configuration, read once when the module is imported. *)
Variable GROQ_API_KEY : str.
Variable GROQ_MODEL : str.
(** [Groq(api_key=k)]: the service as reached with the key [k]. *)
Variable Groq : str → Completion.

(** [client = Groq(api_key=GROQ_API_KEY) if GROQ_API_KEY else None]. *)
Definition client : option Completion :=
  if bool_decide (GROQ_API_KEY = []) then None else Some (Groq GROQ_API_KEY).

Definition groq_chat (system user model : str) : result str :=
  match client with
  | None => Raise (HTTPException 500 (lit "GROQ_API_KEY not set on backend"))
  | Some c =>
      content ← c model system user;
      Ok (default [] content)
  end.

(** *** Tools *)

Definition tool_suggest_next_best_action (extracted : json) : result json :=
  c ← py_get extracted (lit "channel") JNull;
  channel ← method_lower (py_or c (JStr []));
  let nba :=
    if bool_decide (channel ∈ [lit "email"; lit "whatsapp"])
    then nba_message else nba_visit in
  Ok (JObj [(lit "next_best_action", JStr nba)]).

Definition tool_compliance_check_llm (text : str) : result json :=
  out ← groq_chat compliance_system (compliance_prompt text) GROQ_MODEL;
  match json_loads out with
  | Some v => Ok v
  | None =>
      Ok (JObj [(lit "flags", JArr [JStr (lit "parse_error")]);
                (lit "severity", JStr (lit "low"));
                (lit "notes", JStr (take 400 out))])
  end.

Definition tool_summarize_and_extract (text : str) : result json :=
  out ← groq_chat extract_system (extract_prompt text) GROQ_MODEL;
  match json_loads out with
  | Some v => Ok v
  | None =>
      Ok (JObj [(lit "summary", JStr (take 180 text));
                (lit "entities", JObj [])])
  end.

(** *** Graph nodes *)

Definition node_route_intent (state : AgentState) : result AgentState :=
  m ← state_item (user_message state);
  let text := py_lower m in
  if str_contains (lit "edit") text
     || str_contains (lit "change") text
     || str_contains (lit "update") text
  then Ok (set_intent (lit "edit") state)
  else Ok (set_intent (lit "log") state).

(** [now] is the value [datetime.utcnow()] returns during the call. *)
Definition node_extract (now : datetime) (state : AgentState) : result AgentState :=
  m ← state_item (user_message state);
  result ← tool_summarize_and_extract m;
  e ← py_get result (lit "entities") JNull;
  let entities := py_or e (JObj []) in
  s ← py_get result (lit "summary") JNull;
  let summary := py_or s (JStr []) in
  hcp_name ← py_get entities (lit "hcp_name") (JStr []);
  specialty ← py_get entities (lit "specialty") (JStr []);
  organization ← py_get entities (lit "organization") (JStr []);
  channel ← py_get entities (lit "channel") (JStr (lit "in_person"));
  purpose ← py_get entities (lit "purpose") (JStr []);
  products_discussed ← py_get entities (lit "products_discussed") (JStr []);
  key_points ← py_get entities (lit "key_points") (JStr []);
  outcome ← py_get entities (lit "outcome") (JStr []);
  next_steps ← py_get entities (lit "next_steps") (JStr []);
  follow_up_date ← py_get entities (lit "follow_up_date") (JStr []);
  let draft := JObj [
    (lit "hcp_name", hcp_name);
    (lit "specialty", specialty);
    (lit "organization", organization);
    (lit "interaction_datetime", JStr (isoformat now));
    (lit "channel", py_or channel (JStr (lit "in_person")));
    (lit "purpose", purpose);
    (lit "products_discussed", products_discussed);
    (lit "key_points", key_points);
    (lit "outcome", outcome);
    (lit "next_steps", next_steps);
    (lit "follow_up_date", follow_up_date);
    (lit "raw_notes", JStr m);
    (lit "ai_summary", summary);
    (lit "ai_entities_json", JStr (json_dumps entities));
    (lit "compliance_flags_json", JStr [])
  ] in
  Ok (set_extracted (JObj [(lit "draft", draft)]) state).

(** [(state.get("extracted") or {}).get("draft") or {}]. *)
Definition state_draft (state : AgentState) : result json :=
  d ← py_get (py_or (state_get (extracted state)) (JObj [])) (lit "draft") JNull;
  Ok (py_or d (JObj [])).

(** [o[k] = v]: item assignment with a string key needs a dict. *)
Definition py_setitem (o : json) (k : str) (v : json) : result json :=
  match o with
  | JObj d => Ok (JObj (dict_set k v d))
  | _ => Raise TypeError
  end.

Definition node_compliance (state : AgentState) : result AgentState :=
  draft ← state_draft state;
  raw_notes ← py_get draft (lit "raw_notes") (JStr []);
  ai_summary ← py_get draft (lit "ai_summary") (JStr []);
  let combined :=
    format_value raw_notes ++ nl ++ lit "Summary: " ++ format_value ai_summary in
  compliance ← tool_compliance_check_llm combined;
  let state := set_compliance compliance state in
  draft ← py_setitem draft (lit "compliance_flags_json")
            (JStr (json_dumps compliance));
  ex ← state_item (extracted state);
  ex ← py_setitem ex (lit "draft") draft;
  Ok (set_extracted ex state).

Definition node_respond (state : AgentState) : result AgentState :=
  draft ← state_draft state;
  r ← tool_suggest_next_best_action draft;
  nba ← py_get r (lit "next_best_action") (JStr []);
  f ← py_get (py_or (state_get (compliance state)) (JObj [])) (lit "flags") JNull;
  let flags := py_or f (JArr []) in
  s ← py_get (py_or (state_get (compliance state)) (JObj [])) (lit "severity") JNull;
  let sev := py_or s (JStr (lit "low")) in
  let msg := msg_ack ++ msg_nba (format_value nba) in
  msg ← (if truthy flags && negb (eq_parse_error_list flags)
         then joined ← py_join (lit ", ") flags;
              Ok (msg ++ msg_warning (format_value sev) joined)
         else Ok msg);
  let msg := msg ++ msg_save in
  Ok (set_assistant_message msg state).

(** *** The compiled graph: route_intent, extract, compliance, respond *)

Definition agent_app_invoke (now : datetime) (state : AgentState) : result AgentState :=
  state ← node_route_intent state;
  state ← node_extract now state;
  state ← node_compliance state;
  node_respond state.

(** *** POST /api/agent/chat *)

Definition agent_chat (now : datetime) (req : ChatReq) : result json :=
  let state := {|
    thread_id := Some (match req_thread_id req with
                       | Some t => if bool_decide (t = []) then lit "default" else t
                       | None => lit "default"
                       end);
    user_message := Some (req_message req);
    intent := None; extracted := None; compliance := None;
    assistant_message := None |} in
  out ← agent_app_invoke now state;
  draft ← py_get (py_or (state_get (extracted out)) (JObj [])) (lit "draft") JNull;
  Ok (JObj [
    (lit "assistant_message", JStr (default (lit "Done.") (assistant_message out)));
    (lit "draft_interaction", py_or draft (JObj []))
  ]).
End Backend.

(** ** The table [hcp_interactions] *)

(** A value held by a row attribute: what a patch carries, or a
    [datetime]. *)
Inductive pyval :=
| VJson (j : json)
| VDatetime (d : datetime).

#[global] Instance pyval_eq_dec : EqDecision pyval.
Proof. solve_decision. Defined.

(** The mapped class [Interaction]. *)
Module Interaction.
Record t := {
  id : Z;
  hcp_name : json;
  specialty : json;
  organization : json;
  interaction_datetime : pyval;
  channel : json;
  purpose : json;
  products_discussed : json;
  key_points : json;
  outcome : json;
  next_steps : json;
  follow_up_date : json;
  raw_notes : json;
  ai_summary : json;
  ai_entities_json : json;
  compliance_flags_json : json;
  created_at : option datetime;
  updated_at : option datetime
}.
End Interaction.

(** The attributes a patch may name. *)
Inductive column :=
| c_hcp_name
| c_specialty
| c_organization
| c_interaction_datetime
| c_channel
| c_purpose
| c_products_discussed
| c_key_points
| c_outcome
| c_next_steps
| c_follow_up_date
| c_raw_notes
| c_ai_summary
| c_ai_entities_json
| c_compliance_flags_json.

#[global] Instance column_eq_dec : EqDecision column.
Proof. solve_decision. Defined.

Definition column_name (c : column) : str :=
  match c with
  | c_hcp_name => lit "hcp_name"
  | c_specialty => lit "specialty"
  | c_organization => lit "organization"
  | c_interaction_datetime => lit "interaction_datetime"
  | c_channel => lit "channel"
  | c_purpose => lit "purpose"
  | c_products_discussed => lit "products_discussed"
  | c_key_points => lit "key_points"
  | c_outcome => lit "outcome"
  | c_next_steps => lit "next_steps"
  | c_follow_up_date => lit "follow_up_date"
  | c_raw_notes => lit "raw_notes"
  | c_ai_summary => lit "ai_summary"
  | c_ai_entities_json => lit "ai_entities_json"
  | c_compliance_flags_json => lit "compliance_flags_json"
  end.

Definition columns : list column :=
  [c_hcp_name; c_specialty; c_organization; c_interaction_datetime;
   c_channel; c_purpose; c_products_discussed; c_key_points;
   c_outcome; c_next_steps; c_follow_up_date; c_raw_notes;
   c_ai_summary; c_ai_entities_json; c_compliance_flags_json].

(** The set [allowed] of [tool_edit_interaction]. *)
Definition allowed : list str :=
  [lit "hcp_name"; lit "specialty"; lit "organization";
   lit "interaction_datetime"; lit "channel"; lit "purpose";
   lit "products_discussed"; lit "key_points"; lit "outcome";
   lit "next_steps"; lit "follow_up_date"; lit "raw_notes";
   lit "ai_summary"; lit "ai_entities_json"; lit "compliance_flags_json"].

(** The column a key names; [None] when [k not in allowed]. *)
Definition column_of_name (k : str) : option column :=
  snd <$> list_find (λ c, column_name c = k) columns.


(** [setattr(row, c, v)] for a value [v] taken from a patch: the attribute
    [c] takes the value, every other attribute keeps its own. *)
Definition setattr (c : column) (v : json) (row : Interaction.t) : Interaction.t :=
  let pick (c' : column) (old : json) := if decide (c = c') then v else old in
  {| Interaction.id := Interaction.id row;
     Interaction.hcp_name := pick c_hcp_name (Interaction.hcp_name row);
     Interaction.specialty := pick c_specialty (Interaction.specialty row);
     Interaction.organization := pick c_organization (Interaction.organization row);
     Interaction.interaction_datetime := if decide (c = c_interaction_datetime) then VJson v
       else Interaction.interaction_datetime row;
     Interaction.channel := pick c_channel (Interaction.channel row);
     Interaction.purpose := pick c_purpose (Interaction.purpose row);
     Interaction.products_discussed := pick c_products_discussed (Interaction.products_discussed row);
     Interaction.key_points := pick c_key_points (Interaction.key_points row);
     Interaction.outcome := pick c_outcome (Interaction.outcome row);
     Interaction.next_steps := pick c_next_steps (Interaction.next_steps row);
     Interaction.follow_up_date := pick c_follow_up_date (Interaction.follow_up_date row);
     Interaction.raw_notes := pick c_raw_notes (Interaction.raw_notes row);
     Interaction.ai_summary := pick c_ai_summary (Interaction.ai_summary row);
     Interaction.ai_entities_json := pick c_ai_entities_json (Interaction.ai_entities_json row);
     Interaction.compliance_flags_json := pick c_compliance_flags_json (Interaction.compliance_flags_json row);
     Interaction.created_at := Interaction.created_at row;
     Interaction.updated_at := Interaction.updated_at row |}.

(** [setattr(row, "interaction_datetime", vdt)] for a parsed [datetime]. *)
Definition set_interaction_datetime (d : datetime) (row : Interaction.t) : Interaction.t :=
  {| Interaction.id := Interaction.id row;
     Interaction.hcp_name := Interaction.hcp_name row;
     Interaction.specialty := Interaction.specialty row;
     Interaction.organization := Interaction.organization row;
     Interaction.interaction_datetime := VDatetime d;
     Interaction.channel := Interaction.channel row;
     Interaction.purpose := Interaction.purpose row;
     Interaction.products_discussed := Interaction.products_discussed row;
     Interaction.key_points := Interaction.key_points row;
     Interaction.outcome := Interaction.outcome row;
     Interaction.next_steps := Interaction.next_steps row;
     Interaction.follow_up_date := Interaction.follow_up_date row;
     Interaction.raw_notes := Interaction.raw_notes row;
     Interaction.ai_summary := Interaction.ai_summary row;
     Interaction.ai_entities_json := Interaction.ai_entities_json row;
     Interaction.compliance_flags_json := Interaction.compliance_flags_json row;
     Interaction.created_at := Interaction.created_at row;
     Interaction.updated_at := Interaction.updated_at row |}.

(** [row.updated_at = v]. *)
Definition set_updated_at (v : datetime) (row : Interaction.t) : Interaction.t :=
  {| Interaction.id := Interaction.id row;
     Interaction.hcp_name := Interaction.hcp_name row;
     Interaction.specialty := Interaction.specialty row;
     Interaction.organization := Interaction.organization row;
     Interaction.interaction_datetime := Interaction.interaction_datetime row;
     Interaction.channel := Interaction.channel row;
     Interaction.purpose := Interaction.purpose row;
     Interaction.products_discussed := Interaction.products_discussed row;
     Interaction.key_points := Interaction.key_points row;
     Interaction.outcome := Interaction.outcome row;
     Interaction.next_steps := Interaction.next_steps row;
     Interaction.follow_up_date := Interaction.follow_up_date row;
     Interaction.raw_notes := Interaction.raw_notes row;
     Interaction.ai_summary := Interaction.ai_summary row;
     Interaction.ai_entities_json := Interaction.ai_entities_json row;
     Interaction.compliance_flags_json := Interaction.compliance_flags_json row;
     Interaction.created_at := Interaction.created_at row;
     Interaction.updated_at := Some v |}.

(** ** The database

    What [db.commit()] makes of the values the code assigns to a row.
    [db_text c v] is what the string column [c] holds after a write of the
    value [v]: a string is kept when the column takes it, a number may be
    stored as its text, and [None] stands for a value the driver or the
    database rejects (a list, a string longer than the column), in which
    case [db.commit()] raises and nothing is written.  [db_when v] is the
    same for a value that is not a [datetime] written to the [DateTime]
    column [interaction_datetime].  A [datetime] is stored as it is.  Two
    laws, as PostgreSQL, MySQL and SQLite have them: the empty string is
    stored as the empty string, and only a null is stored as a null. *)
Class Database := {
  db_text : column → json → option json;
  db_when : json → option pyval;
  db_text_empty : ∀ c, db_text c (JStr []) = Some (JStr []);
  db_text_null : ∀ c v, db_text c v = Some JNull → v = JNull
}.

(** The value of [default=] of a string column. *)
Definition column_default (c : column) : json :=
  if decide (c = c_channel) then JStr (lit "in_person") else JStr [].

Section Store.
Context `{Runtime} `{Database}.

(** The table: its rows, in insertion order. *)
Definition table : Type := list Interaction.t.

(** [db.query(Interaction).filter(Interaction.id == i).first()], with the
    position of the row in the table. *)
Definition query_first (db : table) (i : Z) : option (nat * Interaction.t) :=
  list_find (λ row, Interaction.id row = i) db.

(** [v] when [isinstance(v, str)]. *)
Definition as_str (v : json) : option str :=
  match v with
  | JStr s => Some s
  | _ => None
  end.

(** [v if v is not None else ""]. *)
Definition none_to_empty (v : json) : json :=
  match v with
  | JNull => JStr []
  | _ => v
  end.

(** One turn of the loop [for k, v in patch.items()]. *)
Definition apply_patch_item (row : Interaction.t) (kv : str * json) : Interaction.t :=
  let '(k, v) := kv in
  match column_of_name k with
  | None => row
  | Some c =>
      match (if decide (c = c_interaction_datetime) then as_str v else None) with
      | Some s =>
          match fromisoformat (str_replace_char 90 (lit "+00:00") s) with
          | Some d => set_interaction_datetime (replace_tzinfo_none d) row
          | None => row
          end
      | None => setattr c (none_to_empty v) row
      end
  end.

(** The loop [for k, v in patch.items()], in the order of the dict. *)
Definition apply_patch (row : Interaction.t) (patch : dict) : Interaction.t :=
  foldl apply_patch_item row patch.

(** The UPDATE of [db.commit()] carries the attributes whose value
    differs from the one loaded, and only those: an attribute assigned the
    value it had is not written.  (A loaded string attribute is a string
    or null, where [==] is the equality of values.) *)
Definition flush_text (c : column) (loaded assigned : json) : option json :=
  if decide (assigned = loaded) then Some loaded else db_text c assigned.

Definition flush_when (loaded assigned : pyval) : option pyval :=
  if decide (assigned = loaded) then Some loaded
  else
    match assigned with
    | VDatetime d => Some (VDatetime d)
    | VJson v => db_when v
    end.

(** [db.commit()] on a loaded row [loaded] whose attributes now read
    [row]: the row the table holds afterwards, or [None] when the
    statement is rejected. *)
Definition commit_update (loaded row : Interaction.t) : option Interaction.t :=
  hcp_name ← flush_text c_hcp_name (Interaction.hcp_name loaded) (Interaction.hcp_name row);
  specialty ← flush_text c_specialty (Interaction.specialty loaded) (Interaction.specialty row);
  organization ←
    flush_text c_organization (Interaction.organization loaded) (Interaction.organization row);
  interaction_datetime ←
    flush_when (Interaction.interaction_datetime loaded) (Interaction.interaction_datetime row);
  channel ← flush_text c_channel (Interaction.channel loaded) (Interaction.channel row);
  purpose ← flush_text c_purpose (Interaction.purpose loaded) (Interaction.purpose row);
  products_discussed ←
    flush_text c_products_discussed
      (Interaction.products_discussed loaded) (Interaction.products_discussed row);
  key_points ← flush_text c_key_points (Interaction.key_points loaded) (Interaction.key_points row);
  outcome ← flush_text c_outcome (Interaction.outcome loaded) (Interaction.outcome row);
  next_steps ← flush_text c_next_steps (Interaction.next_steps loaded) (Interaction.next_steps row);
  follow_up_date ←
    flush_text c_follow_up_date (Interaction.follow_up_date loaded) (Interaction.follow_up_date row);
  raw_notes ← flush_text c_raw_notes (Interaction.raw_notes loaded) (Interaction.raw_notes row);
  ai_summary ← flush_text c_ai_summary (Interaction.ai_summary loaded) (Interaction.ai_summary row);
  ai_entities_json ←
    flush_text c_ai_entities_json
      (Interaction.ai_entities_json loaded) (Interaction.ai_entities_json row);
  compliance_flags_json ←
    flush_text c_compliance_flags_json
      (Interaction.compliance_flags_json loaded) (Interaction.compliance_flags_json row);
  Some
    {| Interaction.id := Interaction.id row;
       Interaction.hcp_name := hcp_name;
       Interaction.specialty := specialty;
       Interaction.organization := organization;
       Interaction.interaction_datetime := interaction_datetime;
       Interaction.channel := channel;
       Interaction.purpose := purpose;
       Interaction.products_discussed := products_discussed;
       Interaction.key_points := key_points;
       Interaction.outcome := outcome;
       Interaction.next_steps := next_steps;
       Interaction.follow_up_date := follow_up_date;
       Interaction.raw_notes := raw_notes;
       Interaction.ai_summary := ai_summary;
       Interaction.ai_entities_json := ai_entities_json;
       Interaction.compliance_flags_json := compliance_flags_json;
       Interaction.created_at := Interaction.created_at row;
       Interaction.updated_at := Interaction.updated_at row |}.

(** On INSERT an attribute that is [None] takes the default of its
    column; the value then goes through the column like any other. *)
Definition insert_text (c : column) (v : json) : option json :=
  db_text c (match v with JNull => column_default c | _ => v end).

(** [db.add(row); db.commit(); db.refresh(row)] for a new row whose
    timestamps are [datetime] values. *)
Definition commit_insert (row : Interaction.t) : option Interaction.t :=
  hcp_name ← insert_text c_hcp_name (Interaction.hcp_name row);
  specialty ← insert_text c_specialty (Interaction.specialty row);
  organization ← insert_text c_organization (Interaction.organization row);
  interaction_datetime ←
    match Interaction.interaction_datetime row with
    | VDatetime d => Some (VDatetime d)
    | VJson v => db_when v
    end;
  channel ← insert_text c_channel (Interaction.channel row);
  purpose ← insert_text c_purpose (Interaction.purpose row);
  products_discussed ← insert_text c_products_discussed (Interaction.products_discussed row);
  key_points ← insert_text c_key_points (Interaction.key_points row);
  outcome ← insert_text c_outcome (Interaction.outcome row);
  next_steps ← insert_text c_next_steps (Interaction.next_steps row);
  follow_up_date ← insert_text c_follow_up_date (Interaction.follow_up_date row);
  raw_notes ← insert_text c_raw_notes (Interaction.raw_notes row);
  ai_summary ← insert_text c_ai_summary (Interaction.ai_summary row);
  ai_entities_json ← insert_text c_ai_entities_json (Interaction.ai_entities_json row);
  compliance_flags_json ←
    insert_text c_compliance_flags_json (Interaction.compliance_flags_json row);
  Some
    {| Interaction.id := Interaction.id row;
       Interaction.hcp_name := hcp_name;
       Interaction.specialty := specialty;
       Interaction.organization := organization;
       Interaction.interaction_datetime := interaction_datetime;
       Interaction.channel := channel;
       Interaction.purpose := purpose;
       Interaction.products_discussed := products_discussed;
       Interaction.key_points := key_points;
       Interaction.outcome := outcome;
       Interaction.next_steps := next_steps;
       Interaction.follow_up_date := follow_up_date;
       Interaction.raw_notes := raw_notes;
       Interaction.ai_summary := ai_summary;
       Interaction.ai_entities_json := ai_entities_json;
       Interaction.compliance_flags_json := compliance_flags_json;
       Interaction.created_at := Interaction.created_at row;
       Interaction.updated_at := Interaction.updated_at row |}.

(** [now] is the value [datetime.utcnow()] returns during the call.  The
    result pairs the table after the call with the returned dict, or with
    the exception [db.commit()] raised, in which case the table is the one
    before the call. *)
Definition tool_edit_interaction
    (db : table) (interaction_id : Z) (patch : dict) (now : datetime)
    : table * result json :=
  match query_first db interaction_id with
  | None =>
      (db, Ok (JObj [(lit "ok", JBool false); (lit "error", JStr (lit "not_found"))]))
  | Some (i, row) =>
      let edited := apply_patch row patch in
      let edited := set_updated_at now edited in
      match commit_update row edited with
      | Some stored => (<[i := stored]> db, Ok (JObj [(lit "ok", JBool true)]))
      | None => (db, Raise SQLAlchemyError)
      end
  end.

(** [x.isoformat() if x else None] on an attribute. *)
Definition isoformat_or_none (x : pyval) : result json :=
  match x with
  | VDatetime d => Ok (JStr (isoformat d))
  | VJson j => if truthy j then Raise AttributeError else Ok JNull
  end.

Definition optional_isoformat (x : option datetime) : json :=
  match x with
  | Some d => JStr (isoformat d)
  | None => JNull
  end.

Definition to_dict (row : Interaction.t) : result json :=
  when ← isoformat_or_none (Interaction.interaction_datetime row);
  Ok (JObj [
    (lit "id", JInt (Interaction.id row));
    (lit "hcp_name", Interaction.hcp_name row);
    (lit "specialty", Interaction.specialty row);
    (lit "organization", Interaction.organization row);
    (lit "interaction_datetime", when);
    (lit "channel", Interaction.channel row);
    (lit "purpose", Interaction.purpose row);
    (lit "products_discussed", Interaction.products_discussed row);
    (lit "key_points", Interaction.key_points row);
    (lit "outcome", Interaction.outcome row);
    (lit "next_steps", Interaction.next_steps row);
    (lit "follow_up_date", Interaction.follow_up_date row);
    (lit "raw_notes", Interaction.raw_notes row);
    (lit "ai_summary", Interaction.ai_summary row);
    (lit "ai_entities_json", Interaction.ai_entities_json row);
    (lit "compliance_flags_json", Interaction.compliance_flags_json row);
    (lit "created_at", optional_isoformat (Interaction.created_at row));
    (lit "updated_at", optional_isoformat (Interaction.updated_at row))
  ]).

(** *** PUT /api/interactions/{interaction_id} *)

Definition edit_interaction
    (db : table) (interaction_id : Z) (patch : dict) (now : datetime)
    : table * result json :=
  let '(db, ok) := tool_edit_interaction db interaction_id patch now in
  (db,
   ok ← ok;
   flag ← py_get ok (lit "ok") JNull;
   if negb (truthy flag)
   then Raise (HTTPException 404 (lit "Interaction not found"))
   else
     match query_first db interaction_id with
     | Some (_, row) => item ← to_dict row; Ok (JObj [(lit "item", item)])
     | None => Raise AttributeError
     end).
End Store.

(** ** Logging an interaction *)

(** The request schema [InteractionDraft]: validated fields, every one a
    string but the optional timestamp. *)
Module InteractionDraft.
Record t := {
  hcp_name : str;
  specialty : str;
  organization : str;
  interaction_datetime : option str;
  channel : str;
  purpose : str;
  products_discussed : str;
  key_points : str;
  outcome : str;
  next_steps : str;
  follow_up_date : str;
  raw_notes : str;
  ai_summary : str;
  ai_entities_json : str;
  compliance_flags_json : str
}.

(** [draft.dict()]: the fields in the order of their declaration. *)
Definition dict (d : t) : list (str * json) :=
  [
   (lit "hcp_name", JStr (hcp_name d));
   (lit "specialty", JStr (specialty d));
   (lit "organization", JStr (organization d));
   (lit "interaction_datetime", from_option JStr JNull (interaction_datetime d));
   (lit "channel", JStr (channel d));
   (lit "purpose", JStr (purpose d));
   (lit "products_discussed", JStr (products_discussed d));
   (lit "key_points", JStr (key_points d));
   (lit "outcome", JStr (outcome d));
   (lit "next_steps", JStr (next_steps d));
   (lit "follow_up_date", JStr (follow_up_date d));
   (lit "raw_notes", JStr (raw_notes d));
   (lit "ai_summary", JStr (ai_summary d));
   (lit "ai_entities_json", JStr (ai_entities_json d));
   (lit "compliance_flags_json", JStr (compliance_flags_json d))
  ].
End InteractionDraft.

(** [LogInteractionReq]. *)
Record LogInteractionReq := {
  interaction : InteractionDraft.t
}.

(** [a + b] where [a] is a string: [b] must be one too. *)
Definition str_add (a : str) (b : json) : result str :=
  match b with
  | JStr s => Ok (a ++ s)
  | _ => Raise TypeError
  end.

(** [created["id"]], the integer the query then filters on. *)
Definition created_id (created : json) : result Z :=
  match created with
  | JObj c =>
      match dict_lookup (lit "id") c with
      | Some (JInt i) => Ok i
      | Some _ => Raise TypeError
      | None => Raise KeyError
      end
  | _ => Raise TypeError
  end.

Section Logging.
Context `{Runtime} `{Database}.
Variables (GROQ_API_KEY GROQ_MODEL : str) (Groq : str → Completion).

(** [new_id] is the primary key the database assigns to the new row;
    [clock n] is the value of the [n]-th call of [datetime.utcnow()]
    during the call, counted from 0.  The timestamp of the draft is used
    when it is a string that [fromisoformat] accepts; every failure inside
    the [try] (a value without [.replace], a rejected string) reads the
    clock again.  [db.add(row); db.commit()] appends the row as the
    database stores it, or raises and leaves the table as it was. *)
Definition tool_log_interaction
    (db : table) (new_id : Z) (clock : nat → datetime) (draft : dict)
    : table * result json :=
  let dt_iso := dict_get (lit "interaction_datetime") JNull draft in
  let '(dt, reads) :=
    if truthy dt_iso then
      match as_str dt_iso ≫= (λ s, fromisoformat (str_replace_char 90 (lit "+00:00") s)) with
      | Some d => (replace_tzinfo_none d, 1%nat)
      | None => (clock 1%nat, 2%nat)
      end
    else (clock 0%nat, 1%nat) in
  let row :=
    {|
       Interaction.id := new_id;
       Interaction.hcp_name := dict_get (lit "hcp_name") (JStr []) draft;
       Interaction.specialty := dict_get (lit "specialty") (JStr []) draft;
       Interaction.organization := dict_get (lit "organization") (JStr []) draft;
       Interaction.interaction_datetime := VDatetime dt;
       Interaction.channel := dict_get (lit "channel") (JStr (lit "in_person")) draft;
       Interaction.purpose := dict_get (lit "purpose") (JStr []) draft;
       Interaction.products_discussed := dict_get (lit "products_discussed") (JStr []) draft;
       Interaction.key_points := dict_get (lit "key_points") (JStr []) draft;
       Interaction.outcome := dict_get (lit "outcome") (JStr []) draft;
       Interaction.next_steps := dict_get (lit "next_steps") (JStr []) draft;
       Interaction.follow_up_date := dict_get (lit "follow_up_date") (JStr []) draft;
       Interaction.raw_notes := dict_get (lit "raw_notes") (JStr []) draft;
       Interaction.ai_summary := dict_get (lit "ai_summary") (JStr []) draft;
       Interaction.ai_entities_json := dict_get (lit "ai_entities_json") (JStr []) draft;
       Interaction.compliance_flags_json := dict_get (lit "compliance_flags_json") (JStr []) draft;
       Interaction.created_at := Some (clock reads);
       Interaction.updated_at := Some (clock (S reads)) |} in
  match commit_insert row with
  | Some stored => (db ++ [stored], Ok (JObj [(lit "id", JInt (Interaction.id stored))]))
  | None => (db, Raise SQLAlchemyError)
  end.

(** *** POST /api/interactions/log

    [draft["raw_notes"]] is never assigned, so every [draft.get("raw_notes")]
    is the validated string of the request. *)
Definition log_interaction
    (db : table) (new_id : Z) (clock : nat → datetime) (req : LogInteractionReq)
    : table * result json :=
  let raw_notes := InteractionDraft.raw_notes (interaction req) in
  let draft := InteractionDraft.dict (interaction req) in
  let prepared : result dict :=
    draft ←
      (if negb (truthy (dict_get (lit "ai_summary") JNull draft))
          || negb (truthy (dict_get (lit "ai_entities_json") JNull draft))
       then
         result ← tool_summarize_and_extract GROQ_API_KEY GROQ_MODEL Groq raw_notes;
         e ← py_get result (lit "entities") JNull;
         let entities := py_or e (JObj []) in
         s ← py_get result (lit "summary") JNull;
         let draft :=
           dict_set (lit "ai_summary")
             (py_or (dict_get (lit "ai_summary") JNull draft) (py_or s (JStr []))) draft in
         Ok (dict_set (lit "ai_entities_json")
               (py_or (dict_get (lit "ai_entities_json") JNull draft)
                  (JStr (json_dumps entities))) draft)
       else Ok draft);
    if negb (truthy (dict_get (lit "compliance_flags_json") JNull draft))
    then
      text ← str_add (raw_notes ++ nl)
                (py_or (dict_get (lit "ai_summary") JNull draft) (JStr []));
      compliance ← tool_compliance_check_llm GROQ_API_KEY GROQ_MODEL Groq text;
      Ok (dict_set (lit "compliance_flags_json") (JStr (json_dumps compliance)) draft)
    else Ok draft in
  match prepared with
  | Raise e => (db, Raise e)
  | Ok draft =>
      let '(db, created) := tool_log_interaction db new_id clock draft in
      (db,
       created ← created;
       i ← created_id created;
       match query_first db i with
       | Some (_, row) => item ← to_dict row; Ok (JObj [(lit "item", item)])
       | None => Raise AttributeError
       end)
  end.
End Logging.

(** ** A reference runtime for worked examples

    An instance of [Runtime] that computes.  Each function covers a
    fragment of what the Python library accepts and agrees with it there;
    the examples below stay inside the fragments:
    - [lower]: ASCII letters are lowered, other code points are kept;
    - [loads]: objects, arrays, strings without escapes, integers,
      [true], [false], [null]; anything else is rejected;
    - [dumps], [repr]: every value but a fractional or very large float;
    - [parse_iso]: [YYYY-MM-DD], optionally followed by [THH:MM:SS] and
      by the offset [+00:00]. *)
Module Demo.

Definition lower (s : str) : str := ascii_lower <$> s.

(** *** Reading JSON *)

Definition is_ws (c : N) : bool := bool_decide (c ∈ [32; 9; 10; 13]%N).

Fixpoint skip_ws (s : str) : str :=
  match s with
  | c :: s' => if is_ws c then skip_ws s' else s
  | [] => []
  end.

(** The next character after white space, with what follows it. *)
Definition next_char (s : str) : option (N * str) :=
  match skip_ws s with
  | c :: s' => Some (c, s')
  | [] => None
  end.

(** The body of a string whose opening quote has been read. *)
Fixpoint parse_string (s : str) : option (str * str) :=
  match s with
  | [] => None
  | c :: s' =>
      if decide (c = 34%N) then Some ([], s')
      else if decide (c = 92 ∨ c < 32)%N then None
      else '(body, rest) ← parse_string s'; Some (c :: body, rest)
  end.

Definition is_digit (c : N) : bool := bool_decide (48 ≤ c ≤ 57)%N.

Fixpoint take_digits (s : str) : str * str :=
  match s with
  | c :: s' =>
      if is_digit c
      then let '(ds, rest) := take_digits s' in (c :: ds, rest)
      else ([], s)
  | [] => ([], [])
  end.

Definition digits_value (ds : str) : Z :=
  foldl (λ acc d, acc * 10 + (Z.of_N d - 48)) 0 ds.

Definition parse_int (s : str) : option (Z * str) :=
  let '(negative, s1) :=
    match s with
    | c :: s' => if decide (c = 45%N) then (true, s') else (false, s)
    | [] => (false, s)
    end in
  let '(ds, rest) := take_digits s1 in
  match ds with
  | [] => None
  | d :: ds' =>
      if bool_decide (d = 48%N) && negb (bool_decide (ds' = [])) then None
      else
        match rest with
        | c :: _ =>
            if bool_decide (c ∈ [46; 101; 69]%N) then None
            else Some (if negative then - digits_value ds else digits_value ds, rest)
        | [] => Some (if negative then - digits_value ds else digits_value ds, rest)
        end
  end.

Fixpoint parse_value (fuel : nat) (s : str) {struct fuel} : option (json * str) :=
  match fuel with
  | O => None
  | S fuel =>
      let s := skip_ws s in
      match s with
      | [] => None
      | c :: s' =>
          if decide (c = 34%N) then
            '(body, rest) ← parse_string s'; Some (JStr body, rest)
          else if decide (c = 91%N) then
            match next_char s' with
            | Some (93%N, rest) => Some (JArr [], rest)
            | _ => '(items, rest) ← parse_items fuel s'; Some (JArr items, rest)
            end
          else if decide (c = 123%N) then
            match next_char s' with
            | Some (125%N, rest) => Some (JObj [], rest)
            | _ => '(members, rest) ← parse_members fuel s' []; Some (JObj members, rest)
            end
          else if starts_with (lit "null") s then Some (JNull, drop 4 s)
          else if starts_with (lit "true") s then Some (JBool true, drop 4 s)
          else if starts_with (lit "false") s then Some (JBool false, drop 5 s)
          else '(z, rest) ← parse_int s; Some (JInt z, rest)
      end
  end
with parse_items (fuel : nat) (s : str) {struct fuel} : option (list json * str) :=
  match fuel with
  | O => None
  | S fuel =>
      '(v, rest) ← parse_value fuel s;
      match next_char rest with
      | Some (44%N, rest) => '(vs, rest) ← parse_items fuel rest; Some (v :: vs, rest)
      | Some (93%N, rest) => Some ([v], rest)
      | _ => None
      end
  end
with parse_members (fuel : nat) (s : str) (acc : dict) {struct fuel}
    : option (dict * str) :=
  match fuel with
  | O => None
  | S fuel =>
      match next_char s with
      | Some (34%N, s) =>
          '(k, rest) ← parse_string s;
          match next_char rest with
          | Some (58%N, rest) =>
              '(v, rest) ← parse_value fuel rest;
              let acc := dict_set k v acc in
              match next_char rest with
              | Some (44%N, rest) => parse_members fuel rest acc
              | Some (125%N, rest) => Some (acc, rest)
              | _ => None
              end
          | _ => None
          end
      | _ => None
      end
  end.

Definition loads (s : str) : option json :=
  '(v, rest) ← parse_value (2 * List.length s + 2) s;
  match skip_ws rest with
  | [] => Some v
  | _ => None
  end.

(** *** Writing JSON and [str()] *)

Definition int_text (z : Z) : str := lit (NilZero.string_of_int (Z.to_int z)).

Definition hex_digit (n : N) : N := if decide (n < 10)%N then (48 + n)%N else (87 + n)%N.

Definition escape_char (c : N) : str :=
  if decide (c = 34%N) then [92; 34]%N
  else if decide (c = 92%N) then [92; 92]%N
  else if decide (c = 10%N) then [92; 110]%N
  else if decide (c = 13%N) then [92; 114]%N
  else if decide (c = 9%N) then [92; 116]%N
  else if decide (c = 8%N) then [92; 98]%N
  else if decide (c = 12%N) then [92; 102]%N
  else if decide (c < 32)%N
       then lit "\u00" ++ [hex_digit (c / 16); hex_digit (c mod 16)]
       else [c].

(** A whole number below 10^16 prints as [n.0]; other finite floats are
    outside the fragment and print as the product that defines them. *)
Definition float_text (nan inf : string) (f : pyfloat) : str :=
  match f with
  | FNaN => lit nan
  | FInf negative => (if negative then lit "-" else []) ++ lit inf
  | FFinite m e =>
      if bool_decide (0 ≤ e ∧ Z.abs (m * 2 ^ e) < 10 ^ 16)
      then int_text (m * 2 ^ e) ++ lit ".0"
      else int_text m ++ lit "*2**" ++ int_text e
  end.

Fixpoint dumps (v : json) : str :=
  match v with
  | JNull => lit "null"
  | JBool b => if b then lit "true" else lit "false"
  | JInt z => int_text z
  | JFloat f => float_text "NaN" "Infinity" f
  | JStr s => dq ++ (s ≫= escape_char) ++ dq
  | JArr items => lit "[" ++ str_join (lit ", ") (dumps <$> items) ++ lit "]"
  | JObj items =>
      lit "{" ++
      str_join (lit ", ")
        ((λ kv, dq ++ (kv.1 ≫= escape_char) ++ dq ++ lit ": " ++ dumps kv.2) <$> items) ++
      lit "}"
  end.

(** Strings inside a container print between single quotes. *)
Fixpoint repr (v : json) : str :=
  match v with
  | JNull => lit "None"
  | JBool b => if b then lit "True" else lit "False"
  | JInt z => int_text z
  | JFloat f => float_text "nan" "inf" f
  | JStr s => lit "'" ++ s ++ lit "'"
  | JArr items => lit "[" ++ str_join (lit ", ") (repr <$> items) ++ lit "]"
  | JObj items =>
      lit "{" ++
      str_join (lit ", ")
        ((λ kv, lit "'" ++ kv.1 ++ lit "'" ++ lit ": " ++ repr kv.2) <$> items) ++
      lit "}"
  end.

(** *** Reading dates *)

Definition read_digits (n : nat) (s : str) : option (Z * str) :=
  let ds := take n s in
  if bool_decide (List.length ds = n) && forallb is_digit ds
  then Some (digits_value ds, drop n s)
  else None.

Definition expect (c : N) (s : str) : option str :=
  match s with
  | c' :: rest => if decide (c' = c) then Some rest else None
  | [] => None
  end.

Definition days_in_month (y m : Z) : Z :=
  if bool_decide (m ∈ [1; 3; 5; 7; 8; 10; 12]) then 31
  else if bool_decide (m ∈ [4; 6; 9; 11]) then 30
  else if bool_decide (y mod 4 = 0 ∧ (y mod 100 ≠ 0 ∨ y mod 400 = 0)) then 29
  else 28.

Definition parse_iso (s : str) : option datetime :=
  '(y, s) ← read_digits 4 s;
  s ← expect 45 s;
  '(m, s) ← read_digits 2 s;
  s ← expect 45 s;
  '(d, s) ← read_digits 2 s;
  if negb (bool_decide (1 ≤ y ∧ 1 ≤ m ≤ 12 ∧ 1 ≤ d ≤ days_in_month y m)) then None
  else
    match s with
    | [] =>
        Some {| year := y; month := m; day := d; hour := 0; minute := 0;
                second := 0; microsecond := 0; tzinfo := None |}
    | _ =>
        s ← expect 84 s;
        '(hh, s) ← read_digits 2 s;
        s ← expect 58 s;
        '(mi, s) ← read_digits 2 s;
        s ← expect 58 s;
        '(ss, s) ← read_digits 2 s;
        if negb (bool_decide (hh < 24 ∧ mi < 60 ∧ ss < 60)) then None
        else if bool_decide (s = []) then
          Some {| year := y; month := m; day := d; hour := hh; minute := mi;
                  second := ss; microsecond := 0; tzinfo := None |}
        else if bool_decide (s = lit "+00:00") then
          Some {| year := y; month := m; day := d; hour := hh; minute := mi;
                  second := ss; microsecond := 0; tzinfo := Some 0 |}
        else None
    end.

#[global] Instance runtime : Runtime := {|
  py_lower := lower;
  py_lower_ascii := λ s _, eq_refl;
  json_loads := loads;
  json_dumps := dumps;
  py_repr := repr;
  fromisoformat := parse_iso
|}.

(** *** Storing values *)

(** The length of a string column; [None] for a [Text] column. *)
Definition column_length (c : column) : option nat :=
  match c with
  | c_hcp_name | c_specialty | c_organization | c_purpose | c_products_discussed =>
      Some 255%nat
  | c_channel | c_follow_up_date => Some 50%nat
  | _ => None
  end.

Definition fits (c : column) (s : str) : bool :=
  match column_length c with
  | Some n => bool_decide (List.length s ≤ n)%nat
  | None => true
  end.

(** PostgreSQL through psycopg2: a string is stored when the column is
    long enough for it, an integer as its decimal text; a list or an
    object cannot be written.  Other values are outside the fragment and
    are rejected here. *)
Definition store_text (c : column) (v : json) : option json :=
  match v with
  | JStr s => if fits c s then Some (JStr s) else None
  | JInt z => if fits c (int_text z) then Some (JStr (int_text z)) else None
  | _ => None
  end.

(** A value that is not a [datetime] is not taken by the [DateTime]
    column. *)
Definition store_when (v : json) : option pyval := None.

#[global] Instance database : Database.
Proof.
  refine {| db_text := store_text; db_when := store_when |}.
  - by intros [].
  - intros c [] Hstored; try done; cbn [store_text] in Hstored;
      by destruct (fits c _).
Defined.

(** *** Sample clients, clock readings and rows *)

(** A service that answers in prose, whatever it is asked. *)
Definition prose_service : str → Completion :=
  λ _ _ _ _, Ok (Some (lit "Sorry, I can only answer in plain words.")).

(** A service that answers each of the two prompts with the JSON text
    of a fixed value. *)
Definition scripted_service (extraction verdict : json) : str → Completion :=
  λ _ _ system _,
    Ok (Some (dumps (if bool_decide (system = extract_system)
                     then extraction else verdict))).

Definition api_key : str := lit "gsk_test".
Definition model_name : str := lit "gemma2-9b-it".

Definition noon : datetime :=
  {| year := 2024; month := 3; day := 5; hour := 12; minute := 0;
     second := 0; microsecond := 0; tzinfo := None |}.
Definition one_past_noon : datetime :=
  {| year := 2024; month := 3; day := 5; hour := 12; minute := 0;
     second := 1; microsecond := 0; tzinfo := None |}.

(** A state as the compliance node leaves it: a draft logged over e-mail
    and two findings of high severity. *)
Definition email_draft : dict :=
  [(lit "hcp_name", JStr (lit "Dr. Rao")); (lit "channel", JStr (lit "email"))].
Definition two_findings : dict :=
  [(lit "flags", JArr [JStr (lit "off_label"); JStr (lit "pii_risk")]);
   (lit "severity", JStr (lit "high"));
   (lit "notes", JStr (lit "Mentions an unapproved use."))].
Definition flagged_state : AgentState :=
  {| thread_id := Some (lit "default");
     user_message := Some (lit "Met Dr. Rao today");
     intent := Some (lit "log");
     extracted := Some (JObj [(lit "draft", JObj email_draft)]);
     compliance := Some (JObj two_findings);
     assistant_message := None |}.

(** A state before extraction. *)
Definition fresh_state : AgentState :=
  {| thread_id := Some (lit "default");
     user_message := Some (lit "Met Dr. Rao today");
     intent := Some (lit "log");
     extracted := None; compliance := None; assistant_message := None |}.

(** An extraction that names the doctor, leaves the specialty empty, sends
    a null organization and an empty channel, and omits the rest. *)
Definition sparse_entities : dict :=
  [(lit "hcp_name", JStr (lit "Dr. Rao")); (lit "specialty", JStr []);
   (lit "organization", JNull); (lit "channel", JStr [])].
Definition sparse_extraction : json :=
  JObj [(lit "summary", JStr (lit "Met Dr. Rao")); (lit "entities", JObj sparse_entities)].
Definition no_findings : json :=
  JObj [(lit "flags", JArr []); (lit "severity", JStr (lit "low")); (lit "notes", JStr [])].

Definition visit_row : Interaction.t :=
  {| Interaction.id := 7;
     Interaction.hcp_name := JStr (lit "Dr. Rao");
     Interaction.specialty := JStr (lit "Cardiology");
     Interaction.organization := JStr (lit "City Hospital");
     Interaction.interaction_datetime := VDatetime noon;
     Interaction.channel := JStr (lit "in_person");
     Interaction.purpose := JStr (lit "Detailing");
     Interaction.products_discussed := JStr (lit "Drug X");
     Interaction.key_points := JStr [];
     Interaction.outcome := JStr [];
     Interaction.next_steps := JStr [];
     Interaction.follow_up_date := JStr [];
     Interaction.raw_notes := JStr (lit "Met Dr. Rao, discussed Drug X");
     Interaction.ai_summary := JStr [];
     Interaction.ai_entities_json := JStr [];
     Interaction.compliance_flags_json := JStr [];
     Interaction.created_at := Some noon;
     Interaction.updated_at := Some noon |}.
(** The clock of a call: noon, then one more second at every reading. *)
Definition ticks (n : nat) : datetime :=
  {| year := 2024; month := 3; day := 5; hour := 12; minute := 0;
     second := Z.of_nat n; microsecond := 0; tzinfo := None |}.

(** A request that brings only the notes, and one that brings the three
    derived fields as well. *)
Definition bare_draft : InteractionDraft.t :=
  {| InteractionDraft.hcp_name := lit "Dr. Rao";
     InteractionDraft.specialty := [];
     InteractionDraft.organization := [];
     InteractionDraft.interaction_datetime := Some (lit "2024-03-04T09:30:00Z");
     InteractionDraft.channel := lit "in_person";
     InteractionDraft.purpose := [];
     InteractionDraft.products_discussed := lit "Drug X";
     InteractionDraft.key_points := [];
     InteractionDraft.outcome := [];
     InteractionDraft.next_steps := [];
     InteractionDraft.follow_up_date := [];
     InteractionDraft.raw_notes := lit "Met Dr. Rao, discussed Drug X, good reception";
     InteractionDraft.ai_summary := [];
     InteractionDraft.ai_entities_json := [];
     InteractionDraft.compliance_flags_json := [] |}.

Definition prefilled_draft : InteractionDraft.t :=
  {| InteractionDraft.hcp_name := lit "Dr. Rao";
     InteractionDraft.specialty := [];
     InteractionDraft.organization := [];
     InteractionDraft.interaction_datetime := None;
     InteractionDraft.channel := lit "email";
     InteractionDraft.purpose := [];
     InteractionDraft.products_discussed := lit "Drug X";
     InteractionDraft.key_points := [];
     InteractionDraft.outcome := [];
     InteractionDraft.next_steps := [];
     InteractionDraft.follow_up_date := [];
     InteractionDraft.raw_notes := lit "Met Dr. Rao, discussed Drug X, good reception";
     InteractionDraft.ai_summary := lit "Good reception of Drug X.";
     InteractionDraft.ai_entities_json := lit "{}";
     InteractionDraft.compliance_flags_json := lit "{}" |}.
End Demo.

(** ** Vocabulary of the statements *)

Definition is_str (v : json) : bool :=
  match v with
  | JStr _ => true
  | _ => false
  end.

(** The channel of a draft is one the advisor can read: there is none, or
    it is falsy (so that [or ""] replaces it), or it is a string. *)
Definition channel_readable (extracted : dict) : bool :=
  match dict_lookup (lit "channel") extracted with
  | None => true
  | Some v => negb (truthy v) || is_str v
  end.

(** The entity fields of a draft other than the channel. *)
Definition entity_fields : list str :=
  [lit "hcp_name"; lit "specialty"; lit "organization"; lit "purpose";
   lit "products_discussed"; lit "key_points"; lit "outcome";
   lit "next_steps"; lit "follow_up_date"].

(** A field of the entities mapping is missing or holds the empty string. *)
Definition missing_or_empty (k : str) (entities : dict) : Prop :=
  dict_lookup k entities = None ∨ dict_lookup k entities = Some (JStr []).

(** The channel of the entities mapping is missing or falsy. *)
Definition channel_missing_or_empty (entities : dict) : Prop :=
  match dict_lookup (lit "channel") entities with
  | None => True
  | Some v => truthy v = false
  end.

(** Two outcomes agree up to [R]: both calls return, with results related
    by [R], or both raise the same exception. *)
Definition agree {A : Type} (R : A → A → Prop) (r1 r2 : result A) : Prop :=
  match r1, r2 with
  | Ok a, Ok b => R a b
  | Raise e1, Raise e2 => e1 = e2
  | _, _ => False
  end.

(** [d1] holds the timestamp [t1], and [d2] is [d1] with its
    [interaction_datetime] overwritten by [t2]. *)
Definition retimed (t1 t2 : str) (d1 d2 : dict) : Prop :=
  dict_lookup (lit "interaction_datetime") d1 = Some (JStr t1)
  ∧ d2 = dict_set (lit "interaction_datetime") (JStr t2) d1.

(** Two agent states that differ in the timestamp of the draft only. *)
Definition retimed_state (t1 t2 : str) (st1 st2 : AgentState) : Prop :=
  ∃ d1 d2,
    retimed t1 t2 d1 d2
    ∧ extracted st1 = Some (JObj [(lit "draft", JObj d1)])
    ∧ st2 = set_extracted (JObj [(lit "draft", JObj d2)]) st1.

(** Two chat responses with the same assistant message and drafts that
    differ in the timestamp only. *)
Definition retimed_response (t1 t2 : str) (r1 r2 : json) : Prop :=
  ∃ msg d1 d2,
    retimed t1 t2 d1 d2
    ∧ r1 = JObj [(lit "assistant_message", JStr msg); (lit "draft_interaction", JObj d1)]
    ∧ r2 = JObj [(lit "assistant_message", JStr msg); (lit "draft_interaction", JObj d2)].

(** What a caller reads in the outcome of the chat endpoint. *)
Definition response_field (k : str) (outcome : result json) : option json :=
  match outcome with
  | Ok (JObj r) => dict_lookup k r
  | _ => None
  end.

(** Two runs of the chat endpoint gave identical drafts and identical
    assistant messages. *)
Definition rerun_identical (o1 o2 : result json) : Prop :=
  response_field (lit "draft_interaction") o1 = response_field (lit "draft_interaction") o2
  ∧ response_field (lit "assistant_message") o1 = response_field (lit "assistant_message") o2.

(** Two agent states with the same message, draft, compliance result and
    assistant message; they may differ in [thread_id] and [intent]. *)
Definition same_payload (st1 st2 : AgentState) : Prop :=
  user_message st1 = user_message st2
  ∧ extracted st1 = extracted st2
  ∧ compliance st1 = compliance st2
  ∧ assistant_message st1 = assistant_message st2.

(** Whatever the call returns satisfies [P]. *)
Definition returns {A : Type} (P : A → Prop) (r : result A) : Prop :=
  match r with
  | Ok a => P a
  | Raise _ => True
  end.

(** What [node_extract] can read: a dict whose entities entry is a dict,
    or is absent or falsy. *)
Definition extraction_readable (v : json) : bool :=
  match v with
  | JObj r =>
      match py_or (dict_get (lit "entities") JNull r) (JObj []) with
      | JObj _ => true
      | _ => false
      end
  | _ => false
  end.

(** A state whose draft is a dict with exactly the keys of [allowed], in
    that order. *)
Definition holds_full_draft (st : AgentState) : Prop :=
  ∃ d, extracted st = Some (JObj [(lit "draft", JObj d)]) ∧ d.*1 = allowed.

(** What a patch item writes: the column and the value it takes, or
    nothing (a key outside [allowed], a timestamp string that is
    rejected). *)
Definition write_of `{Runtime} (kv : str * json) : option (column * pyval) :=
  c ← column_of_name kv.1;
  match (if decide (c = c_interaction_datetime) then as_str kv.2 else None) with
  | Some s =>
      d ← fromisoformat (str_replace_char 90 (lit "+00:00") s);
      Some (c, VDatetime (replace_tzinfo_none d))
  | None => Some (c, VJson (none_to_empty kv.2))
  end.



(** The primary key holds: no two rows share an id. *)
Definition ids_unique (db : table) : Prop := NoDup (Interaction.id <$> db).

(** * Properties *)

(** ** Substrings *)

Lemma starts_with_spec (needle hay : str) :
  starts_with needle hay = true ↔ ∃ rest, hay = needle ++ rest.
Proof.
  revert hay. induction needle as [|a needle IH]; intros hay; simpl.
  - split; [intros _; by exists hay | done].
  - destruct hay as [|b hay].
    + split; [done | intros [rest Hrest]; discriminate].
    + rewrite andb_true_iff, bool_decide_eq_true, IH. split.
      * intros [-> [rest ->]]. by exists rest.
      * intros [rest Hrest]. injection Hrest as -> ->. eauto.
Qed.

Lemma str_contains_spec (needle hay : str) :
  str_contains needle hay = true ↔ ∃ pre post, hay = pre ++ needle ++ post.
Proof.
  induction hay as [|b hay IH]; simpl.
  - rewrite orb_false_r, starts_with_spec. split.
    + intros [rest Hrest]. by exists [], rest.
    + intros [pre [post Heq]]. symmetry in Heq.
      apply app_eq_nil in Heq as [-> Heq]. apply app_eq_nil in Heq as [-> ->].
      by exists [].
  - rewrite orb_true_iff, starts_with_spec, IH. split.
    + intros [[rest Hrest] | [pre [post ->]]].
      * by exists [], rest.
      * by exists (b :: pre), post.
    + intros [[|c pre] [post Heq]]; simpl in Heq.
      * left. by exists post.
      * right. injection Heq as -> ->. by exists pre, post.
Qed.

Lemma str_contains_middle (pre needle post : str) :
  str_contains needle (pre ++ needle ++ post) = true.
Proof. apply str_contains_spec. by exists pre, post. Qed.

(** ** The two model-backed stages *)

Section StageFacts.
Context `{Runtime}.
Variables (GROQ_API_KEY GROQ_MODEL : str) (Groq : str → Completion).

(** C1.  Extraction Stage: whenever the model's reply [out] to the
    extraction prompt does not parse as JSON, [tool_summarize_and_extract]
    returns (it does not raise) the dict whose summary is [text[:180]] and
    whose entities mapping is empty; that summary is a prefix of the input
    and has [min 180 (len text)] characters. *)
Theorem extract_fallback_on_unparsable_reply (text out : str) :
  groq_chat GROQ_API_KEY Groq extract_system (extract_prompt text) GROQ_MODEL = Ok out →
  json_loads out = None →
  tool_summarize_and_extract GROQ_API_KEY GROQ_MODEL Groq text
    = Ok (JObj [(lit "summary", JStr (take 180 text)); (lit "entities", JObj [])])
  ∧ take 180 text `prefix_of` text
  ∧ List.length (take 180 text) = Nat.min 180 (List.length text).
Proof.
  intros Hreply Hparse. split; [| split].
  - unfold tool_summarize_and_extract.
    rewrite Hreply. simpl. by rewrite Hparse.
  - apply prefix_take.
  - apply length_take.
Qed.

(** C2.  Compliance Stage: whenever the model's reply [out] to the
    compliance prompt does not parse as JSON, [tool_compliance_check_llm]
    returns (it does not raise) exactly the dict with flags
    [["parse_error"]], severity ["low"] and notes [out[:400]], a prefix of
    the raw reply of at most 400 characters. *)
Theorem compliance_fallback_on_unparsable_reply (text out : str) :
  groq_chat GROQ_API_KEY Groq compliance_system (compliance_prompt text) GROQ_MODEL = Ok out →
  json_loads out = None →
  tool_compliance_check_llm GROQ_API_KEY GROQ_MODEL Groq text
    = Ok (JObj [(lit "flags", JArr [JStr (lit "parse_error")]);
                (lit "severity", JStr (lit "low"));
                (lit "notes", JStr (take 400 out))])
  ∧ take 400 out `prefix_of` out
  ∧ List.length (take 400 out) = Nat.min 400 (List.length out).
Proof.
  intros Hreply Hparse. split; [| split].
  - unfold tool_compliance_check_llm.
    rewrite Hreply. simpl. by rewrite Hparse.
  - apply prefix_take.
  - apply length_take.
Qed.

(** With a client configured, [groq_chat] returns what the service
    returns, an absent content read as the empty string. *)
Lemma groq_chat_configured (system user model : str) :
  GROQ_API_KEY ≠ [] →
  groq_chat GROQ_API_KEY Groq system user model
    = content ← Groq GROQ_API_KEY model system user; Ok (default [] content).
Proof.
  intros Hkey. unfold groq_chat, client.
  by rewrite bool_decide_eq_false_2.
Qed.
End StageFacts.

Lemma extract_fallback_on_unparsable_reply_witness :
  tool_summarize_and_extract Demo.api_key Demo.model_name Demo.prose_service
      (lit "Met Dr. Rao today, discussed Drug X")
    = Ok (JObj [(lit "summary", JStr (take 180 (lit "Met Dr. Rao today, discussed Drug X")));
                (lit "entities", JObj [])])
  ∧ take 180 (lit "Met Dr. Rao today, discussed Drug X")
      `prefix_of` lit "Met Dr. Rao today, discussed Drug X"
  ∧ List.length (take 180 (lit "Met Dr. Rao today, discussed Drug X"))
    = Nat.min 180 (List.length (lit "Met Dr. Rao today, discussed Drug X")).
Proof.
  apply (extract_fallback_on_unparsable_reply
           Demo.api_key Demo.model_name Demo.prose_service
           (lit "Met Dr. Rao today, discussed Drug X")
           (lit "Sorry, I can only answer in plain words.")).
  - reflexivity.
  - vm_compute. reflexivity.
Defined.

Lemma compliance_fallback_on_unparsable_reply_witness :
  tool_compliance_check_llm Demo.api_key Demo.model_name Demo.prose_service
      (lit "Met Dr. Rao today")
    = Ok (JObj [(lit "flags", JArr [JStr (lit "parse_error")]);
                (lit "severity", JStr (lit "low"));
                (lit "notes", JStr (take 400 (lit "Sorry, I can only answer in plain words.")))])
  ∧ take 400 (lit "Sorry, I can only answer in plain words.")
      `prefix_of` lit "Sorry, I can only answer in plain words."
  ∧ List.length (take 400 (lit "Sorry, I can only answer in plain words."))
    = Nat.min 400 (List.length (lit "Sorry, I can only answer in plain words.")).
Proof.
  apply (compliance_fallback_on_unparsable_reply
           Demo.api_key Demo.model_name Demo.prose_service
           (lit "Met Dr. Rao today")
           (lit "Sorry, I can only answer in plain words.")).
  - reflexivity.
  - vm_compute. reflexivity.
Defined.

(** ** Dicts *)

Lemma dict_lookup_head (k : str) (v : json) (d : dict) :
  dict_lookup k ((k, v) :: d) = Some v.
Proof. simpl. by rewrite decide_True. Qed.

Lemma dict_lookup_skip (k k' : str) (v : json) (d : dict) :
  k' ≠ k → dict_lookup k ((k', v) :: d) = dict_lookup k d.
Proof. intros Hne. simpl. by rewrite decide_False. Qed.

Lemma dict_get_head (k : str) (dflt v : json) (d : dict) :
  dict_get k dflt ((k, v) :: d) = v.
Proof. unfold dict_get. by rewrite dict_lookup_head. Qed.

(** Two different literals of the source. *)
Ltac lit_neq := let E := fresh in intros E; vm_compute in E; discriminate E.

(** Look a literal key up in a dict whose keys are literals. *)
Ltac dict_steps :=
  repeat first
    [ rewrite dict_lookup_head
    | rewrite dict_get_head
    | rewrite dict_lookup_skip by lit_neq ].

(** ** The advisor *)

Lemma nba_message_neq_visit : nba_message ≠ nba_visit.
Proof. lit_neq. Qed.

Section AdvisorFacts.
Context `{Runtime}.

(** The advisor reads nothing but the channel. *)
Lemma advisor_reads_channel_only (e1 e2 : dict) :
  dict_lookup (lit "channel") e1 = dict_lookup (lit "channel") e2 →
  tool_suggest_next_best_action (JObj e1) = tool_suggest_next_best_action (JObj e2).
Proof.
  intros Hsame. unfold tool_suggest_next_best_action. simpl.
  unfold dict_get. by rewrite Hsame.
Qed.

(** On a draft whose channel is absent, falsy or a string the advisor
    returns a recommendation that the channel alone decides. *)
Lemma advisor_on_readable_channel (extracted : dict) :
  channel_readable extracted = true →
  ∃ nba,
    tool_suggest_next_best_action (JObj extracted)
      = Ok (JObj [(lit "next_best_action", JStr nba)])
    ∧ (∀ other, dict_lookup (lit "channel") other = dict_lookup (lit "channel") extracted →
         tool_suggest_next_best_action (JObj other)
           = Ok (JObj [(lit "next_best_action", JStr nba)]))
    ∧ match dict_lookup (lit "channel") extracted with
      | Some (JStr s) =>
          (py_lower s = lit "email" ∨ py_lower s = lit "whatsapp" → nba = nba_message)
          ∧ (py_lower s ≠ lit "email" → py_lower s ≠ lit "whatsapp" → nba = nba_visit)
          ∧ (Forall is_ascii s →
               (nba = nba_message ↔
                ascii_lower <$> s = lit "email" ∨ ascii_lower <$> s = lit "whatsapp"))
      | _ => nba = nba_visit
      end.
Proof.
  intros Hread.
  assert (∃ s, method_lower (py_or (dict_get (lit "channel") JNull extracted) (JStr []))
               = Ok (py_lower s)
               ∧ match dict_lookup (lit "channel") extracted with
                 | Some (JStr s') => s' = s
                 | _ => s = []
                 end) as [s [Hlower Hs]].
  { unfold channel_readable in Hread. unfold dict_get, py_or.
    destruct (dict_lookup (lit "channel") extracted) as [v|]; simpl.
    - destruct (truthy v) eqn:Htruthy; simpl in Hread.
      + destruct v; try discriminate. by eexists.
      + exists []. split; [done |]. destruct v; try done.
        simpl in Htruthy. apply negb_false_iff, bool_decide_eq_true in Htruthy.
        by subst.
    - by exists []. }
  set (nba := if bool_decide (py_lower s ∈ [lit "email"; lit "whatsapp"])
              then nba_message else nba_visit).
  assert (tool_suggest_next_best_action (JObj extracted)
          = Ok (JObj [(lit "next_best_action", JStr nba)])) as Hrun.
  { unfold tool_suggest_next_best_action. simpl. by rewrite Hlower. }
  exists nba. split; [done | split].
  - intros other Hsame. by rewrite (advisor_reads_channel_only other extracted).
  - assert (∀ x : str, x ∈ [lit "email"; lit "whatsapp"]
                      ↔ x = lit "email" ∨ x = lit "whatsapp") as Hmem.
    { intros x. rewrite !elem_of_cons, elem_of_nil. tauto. }
    assert (nba = nba_message ↔ py_lower s = lit "email" ∨ py_lower s = lit "whatsapp")
      as Hiff.
    { unfold nba. case_bool_decide as Hin; rewrite Hmem in Hin.
      - tauto.
      - split; [intros Heq; by destruct nba_message_neq_visit | tauto]. }
    assert (s = [] → nba = nba_visit) as Hempty.
    { intros ->. unfold nba. rewrite bool_decide_eq_false_2; [done |].
      rewrite (py_lower_ascii []) by constructor. rewrite Hmem.
      intros [E | E]; vm_compute in E; discriminate E. }
    destruct (dict_lookup (lit "channel") extracted) as [[| | | |s'| |]|]; auto.
    subst s'. split; [tauto | split].
    + intros Hn1 Hn2. unfold nba. rewrite bool_decide_eq_false_2; [done |].
      rewrite Hmem. tauto.
    + intros Hascii. by rewrite <- (py_lower_ascii s Hascii).
Qed.

(** On any other draft [.lower()] is called on a value that has no such
    method. *)
Lemma advisor_on_unreadable_channel (extracted : dict) :
  channel_readable extracted = false →
  tool_suggest_next_best_action (JObj extracted) = Raise AttributeError.
Proof.
  unfold channel_readable, tool_suggest_next_best_action.
  cbn [py_get mbind result_bind]. unfold dict_get, py_or.
  destruct (dict_lookup (lit "channel") extracted) as [v|]; [| discriminate].
  cbn [default from_option id]. destruct (truthy v); [| discriminate].
  by destruct v.
Qed.

(** C8 (as amended).  The advisor is a function of the channel alone and
    is total on every draft whose channel is absent, falsy or a string:
    it returns the follow-up-message recommendation exactly when the
    channel is a string whose [lower()] is ["email"] or ["whatsapp"] (for
    ASCII text: whose letters, lowered, spell one of the two), and the
    visit/call recommendation for every other such channel, an empty, null
    or missing one included.  On every draft whose channel is truthy and
    not a string it raises [AttributeError]. *)
Theorem advisor_total_on_readable_channel (extracted : dict) :
  (channel_readable extracted = true →
   ∃ nba,
     tool_suggest_next_best_action (JObj extracted)
       = Ok (JObj [(lit "next_best_action", JStr nba)])
     ∧ (∀ other, dict_lookup (lit "channel") other = dict_lookup (lit "channel") extracted →
          tool_suggest_next_best_action (JObj other)
            = Ok (JObj [(lit "next_best_action", JStr nba)]))
     ∧ match dict_lookup (lit "channel") extracted with
       | Some (JStr s) =>
           (py_lower s = lit "email" ∨ py_lower s = lit "whatsapp" → nba = nba_message)
           ∧ (py_lower s ≠ lit "email" → py_lower s ≠ lit "whatsapp" → nba = nba_visit)
           ∧ (Forall is_ascii s →
                (nba = nba_message ↔
                 ascii_lower <$> s = lit "email" ∨ ascii_lower <$> s = lit "whatsapp"))
       | _ => nba = nba_visit
       end)
  ∧ (∀ v, dict_lookup (lit "channel") extracted = Some v →
          truthy v = true → is_str v = false →
          tool_suggest_next_best_action (JObj extracted) = Raise AttributeError).
Proof.
  split; [apply advisor_on_readable_channel |].
  intros v Hv Htruthy Hstr. apply advisor_on_unreadable_channel.
  unfold channel_readable. by rewrite Hv, Htruthy, Hstr.
Qed.
End AdvisorFacts.

Lemma advisor_total_on_readable_channel_witness :
  (∃ nba,
     tool_suggest_next_best_action
         (JObj [(lit "hcp_name", JStr (lit "Dr. Rao")); (lit "channel", JStr (lit "WhatsApp"))])
       = Ok (JObj [(lit "next_best_action", JStr nba)])
     ∧ nba = nba_message)
  ∧ tool_suggest_next_best_action (JObj [(lit "channel", JArr [JStr (lit "email")])])
    = Raise AttributeError.
Proof.
  split; [| by apply (proj2 (advisor_total_on_readable_channel
                               [(lit "channel", JArr [JStr (lit "email")])])
                        (JArr [JStr (lit "email")]))].
  assert (channel_readable
            [(lit "hcp_name", JStr (lit "Dr. Rao")); (lit "channel", JStr (lit "WhatsApp"))]
          = true) as Hread.
  { vm_compute. reflexivity. }
  destruct (proj1 (advisor_total_on_readable_channel _) Hread) as [nba [Hrun [_ Hchannel]]].
  exists nba. split; [exact Hrun |].
  rewrite dict_lookup_skip, dict_lookup_head in Hchannel by lit_neq.
  destruct Hchannel as [Hmessage _]. apply Hmessage. right. vm_compute. reflexivity.
Defined.

(** C8 as stated fails: a channel that is truthy and not a string, here
    the number 5, makes the advisor raise [AttributeError] at [.lower()]. *)
Lemma advisor_raises_on_number_channel :
  @tool_suggest_next_best_action Demo.runtime (JObj [(lit "channel", JInt 5)])
  = Raise AttributeError.
Proof. reflexivity. Qed.

(** Such a channel reaches the advisor through the chat pipeline: the
    model's JSON is not validated. *)
Lemma chat_raises_on_number_channel :
  agent_chat Demo.api_key Demo.model_name
    (Demo.scripted_service
       (JObj [(lit "summary", JStr (lit "Met Dr. Rao"));
              (lit "entities", JObj [(lit "channel", JInt 5)])])
       (JObj [(lit "flags", JArr []); (lit "severity", JStr (lit "low"))]))
    Demo.noon
    {| req_thread_id := None; req_message := lit "Met Dr. Rao today" |}
  = Raise AttributeError.
Proof. vm_compute. reflexivity. Qed.

(** ** The missing credential *)

Section CredentialFacts.
Context `{Runtime}.
Variables (GROQ_MODEL : str) (Groq : str → Completion).

Lemma node_route_intent_ok (st : AgentState) (m : str) :
  user_message st = Some m →
  ∃ i, node_route_intent st = Ok (set_intent i st).
Proof.
  intros Hm. unfold node_route_intent. rewrite Hm. simpl.
  destruct (_ || _); eauto.
Qed.

End CredentialFacts.

(** ** The response composer *)



Lemma strings_of_strings (flags : list str) : strings_of (JStr <$> flags) = Some flags.
Proof. induction flags as [|f flags IH]; csimpl; [done | by rewrite IH]. Qed.

Lemma eq_parse_error_list_strings (flags : list str) :
  eq_parse_error_list (JArr (JStr <$> flags)) = bool_decide (flags = [lit "parse_error"]).
Proof.
  destruct flags as [|f [|g flags]]; simpl; try done.
  - apply bool_decide_ext. split; congruence.
  - symmetry. by apply bool_decide_eq_false_2.
Qed.

Lemma truthy_strings (flags : list str) :
  truthy (JArr (JStr <$> flags)) = negb (bool_decide (flags = [])).
Proof. by destruct flags. Qed.


Section ComposerFacts.
Context `{Runtime}.

(** On a readable channel the advisor returns one of its two
    recommendations. *)
Lemma advisor_returns_recommendation (d : dict) :
  channel_readable d = true →
  ∃ nba,
    tool_suggest_next_best_action (JObj d) = Ok (JObj [(lit "next_best_action", JStr nba)])
    ∧ (nba = nba_message ∨ nba = nba_visit).
Proof.
  intros Hread. unfold tool_suggest_next_best_action, channel_readable in *.
  simpl. unfold dict_get, py_or.
  destruct (dict_lookup (lit "channel") d) as [v|]; simpl.
  - destruct (truthy v) eqn:Htruthy; simpl in Hread.
    + destruct v; try discriminate. simpl.
      eexists. split; [reflexivity |]. case_bool_decide; auto.
    + simpl. eexists. split; [reflexivity |]. case_bool_decide; auto.
  - eexists. split; [reflexivity |]. case_bool_decide; auto.
Qed.

(** The message [node_respond] composes from the flags and the severity
    it reads. *)
Lemma node_respond_message (st : AgentState) (d c : dict) (nba : str) (flags : list str) :
  state_draft st = Ok (JObj d) →
  tool_suggest_next_best_action (JObj d) = Ok (JObj [(lit "next_best_action", JStr nba)]) →
  py_or (state_get (compliance st)) (JObj []) = JObj c →
  py_or (dict_get (lit "flags") JNull c) (JArr []) = JArr (JStr <$> flags) →
  node_respond st
  = Ok (set_assistant_message
          ((msg_ack ++ msg_nba nba) ++
           (if bool_decide (flags = []) || bool_decide (flags = [lit "parse_error"])
            then []
            else msg_warning
                   (format_value (py_or (dict_get (lit "severity") JNull c) (JStr (lit "low"))))
                   (str_join (lit ", ") flags)) ++
           msg_save) st).
Proof.
  intros Hdraft Hrun Hc Hflags. unfold node_respond.
  rewrite Hdraft. cbn [mbind result_bind]. rewrite Hrun. cbn [mbind result_bind py_get].
  rewrite dict_get_head, Hc. cbn [mbind result_bind py_get format_value].
  rewrite Hflags, truthy_strings, eq_parse_error_list_strings.
  destruct (bool_decide (flags = [])); cbn [negb andb orb mbind result_bind].
  - reflexivity.
  - destruct (bool_decide (flags = [lit "parse_error"])); cbn [negb mbind result_bind].
    + reflexivity.
    + unfold py_join. rewrite strings_of_strings. cbn [mbind result_bind].
      by rewrite <- !app_assoc.
Qed.

End ComposerFacts.


(** Outside that domain: a flags list that holds a number is truthy and
    is not [["parse_error"]], so the composer reaches [", ".join(flags)],
    which raises [TypeError]; no message is composed. *)
Example respond_raises_on_number_flag :
  node_respond
    {| thread_id := Some (lit "default");
       user_message := Some (lit "Met Dr. Rao today");
       intent := Some (lit "log");
       extracted := Some (JObj [(lit "draft", JObj Demo.email_draft)]);
       compliance := Some (JObj [(lit "flags", JArr [JInt 1]);
                                 (lit "severity", JStr (lit "low"))]);
       assistant_message := None |}
  = Raise TypeError.
Proof. vm_compute. reflexivity. Qed.

(** ** The draft built by the extract node *)

Section ExtractFacts.
Context `{Runtime}.
Variables (GROQ_API_KEY GROQ_MODEL : str) (Groq : str → Completion).

(** Whenever the extraction result is a dict whose entities entry is a
    mapping (or is absent or falsy, read as the empty mapping),
    [node_extract] returns a state whose draft has: the empty string in
    every entity field that the mapping lacks or holds as the empty
    string; ["in_person"] in the channel when the mapping lacks the
    channel or holds any falsy value for it; and the user message,
    verbatim, in [raw_notes]. *)
Theorem extract_draft_defaults
    (now : datetime) (st : AgentState) (m : str) (res ents : dict) :
  user_message st = Some m →
  tool_summarize_and_extract GROQ_API_KEY GROQ_MODEL Groq m = Ok (JObj res) →
  py_or (dict_get (lit "entities") JNull res) (JObj []) = JObj ents →
  ∃ draft,
    node_extract GROQ_API_KEY GROQ_MODEL Groq now st
      = Ok (set_extracted (JObj [(lit "draft", JObj draft)]) st)
    ∧ (∀ k, k ∈ entity_fields → missing_or_empty k ents →
         dict_lookup k draft = Some (JStr []) ∧ dict_lookup k draft ≠ Some JNull)
    ∧ (channel_missing_or_empty ents →
         dict_lookup (lit "channel") draft = Some (JStr (lit "in_person")))
    ∧ dict_lookup (lit "raw_notes") draft = Some (JStr m).
Proof.
  intros Hm Hres Hents. unfold node_extract.
  rewrite Hm. cbn [state_item mbind result_bind]. rewrite Hres.
  cbn [mbind result_bind py_get]. rewrite Hents. cbn [mbind result_bind py_get].
  eexists. split; [reflexivity |]. split; [| split].
  - intros k Hk Hempty.
    assert (dict_get k (JStr []) ents = JStr []) as Hget.
    { unfold dict_get. by destruct Hempty as [-> | ->]. }
    unfold entity_fields in Hk. rewrite !elem_of_cons, elem_of_nil in Hk.
    assert (∀ v : json, v = JStr [] → Some v = Some (JStr []) ∧ Some v ≠ Some JNull)
      as Hdone by (by intros v ->).
    destruct Hk as [-> | [-> | [-> | [-> | [-> | [-> | [-> | [-> | [-> | []]]]]]]]]];
      dict_steps; by apply Hdone.
  - intros Hchannel. dict_steps. f_equal.
    unfold channel_missing_or_empty in Hchannel. unfold dict_get, py_or.
    destruct (dict_lookup (lit "channel") ents) as [v|]; simpl; [| done].
    by rewrite Hchannel.
  - by dict_steps.
Qed.

(** An entity that the mapping holds as anything but a missing key is
    copied as it is: a JSON null stays null in the draft. *)
Lemma extract_copies_present_entity
    (now : datetime) (st : AgentState) (m : str) (res ents : dict) (k : str) (v : json) :
  user_message st = Some m →
  tool_summarize_and_extract GROQ_API_KEY GROQ_MODEL Groq m = Ok (JObj res) →
  py_or (dict_get (lit "entities") JNull res) (JObj []) = JObj ents →
  k ∈ entity_fields →
  dict_lookup k ents = Some v →
  ∃ draft,
    node_extract GROQ_API_KEY GROQ_MODEL Groq now st
      = Ok (set_extracted (JObj [(lit "draft", JObj draft)]) st)
    ∧ dict_lookup k draft = Some v.
Proof.
  intros Hm Hres Hents Hk Hv. unfold node_extract.
  rewrite Hm. cbn [state_item mbind result_bind]. rewrite Hres.
  cbn [mbind result_bind py_get]. rewrite Hents. cbn [mbind result_bind py_get].
  eexists. split; [reflexivity |].
  assert (dict_get k (JStr []) ents = v) as Hget.
  { unfold dict_get. by rewrite Hv. }
  unfold entity_fields in Hk. rewrite !elem_of_cons, elem_of_nil in Hk.
  destruct Hk as [-> | [-> | [-> | [-> | [-> | [-> | [-> | [-> | [-> | []]]]]]]]]];
    dict_steps; by rewrite Hget.
Qed.
End ExtractFacts.

Lemma extract_draft_defaults_witness :
  ∃ draft,
    node_extract Demo.api_key Demo.model_name
        (Demo.scripted_service Demo.sparse_extraction Demo.no_findings)
        Demo.noon Demo.fresh_state
      = Ok (set_extracted (JObj [(lit "draft", JObj draft)]) Demo.fresh_state)
    ∧ dict_lookup (lit "specialty") draft = Some (JStr [])
    ∧ dict_lookup (lit "purpose") draft = Some (JStr [])
    ∧ dict_lookup (lit "channel") draft = Some (JStr (lit "in_person"))
    ∧ dict_lookup (lit "raw_notes") draft = Some (JStr (lit "Met Dr. Rao today")).
Proof.
  assert (user_message Demo.fresh_state = Some (lit "Met Dr. Rao today")) as Hm
    by reflexivity.
  assert (tool_summarize_and_extract Demo.api_key Demo.model_name
            (Demo.scripted_service Demo.sparse_extraction Demo.no_findings)
            (lit "Met Dr. Rao today")
          = Ok (JObj [(lit "summary", JStr (lit "Met Dr. Rao"));
                      (lit "entities", JObj Demo.sparse_entities)])) as Hres.
  { vm_compute. reflexivity. }
  assert (py_or (dict_get (lit "entities") JNull
                   [(lit "summary", JStr (lit "Met Dr. Rao"));
                    (lit "entities", JObj Demo.sparse_entities)]) (JObj [])
          = JObj Demo.sparse_entities) as Hents.
  { vm_compute. reflexivity. }
  destruct (extract_draft_defaults Demo.api_key Demo.model_name
              (Demo.scripted_service Demo.sparse_extraction Demo.no_findings)
              Demo.noon Demo.fresh_state _ _ _ Hm Hres Hents)
    as [draft [Hrun [Hfields [Hchannel Hnotes]]]].
  exists draft. split; [exact Hrun |]. repeat split.
  - apply Hfields.
    + unfold entity_fields. rewrite !elem_of_cons. tauto.
    + right. vm_compute. reflexivity.
  - apply Hfields.
    + unfold entity_fields. rewrite !elem_of_cons. tauto.
    + left. vm_compute. reflexivity.
  - apply Hchannel. vm_compute. reflexivity.
  - exact Hnotes.
Defined.

(** C7.  The draft can carry a null.  The model answers the message with
    an entities mapping whose organization is null and whose channel is
    empty; [entities.get] finds the organization key and copies the null
    into the draft, while the channel, read with [or], becomes
    ["in_person"]. *)
Example extract_keeps_null_organization :
  ∃ draft,
    node_extract Demo.api_key Demo.model_name
        (Demo.scripted_service Demo.sparse_extraction Demo.no_findings)
        Demo.noon Demo.fresh_state
      = Ok (set_extracted (JObj [(lit "draft", JObj draft)]) Demo.fresh_state)
    ∧ dict_lookup (lit "organization") draft = Some JNull
    ∧ dict_lookup (lit "channel") draft = Some (JStr (lit "in_person")).
Proof. eexists. split_and!; vm_compute; reflexivity. Qed.

(** ** Re-running the chat pipeline *)

Lemma dict_set_head (k : str) (v v' : json) (d : dict) :
  dict_set k v ((k, v') :: d) = (k, v) :: d.
Proof. simpl. by rewrite decide_True. Qed.

Lemma dict_set_skip (k k' : str) (v v' : json) (d : dict) :
  k' ≠ k → dict_set k v ((k', v') :: d) = (k', v') :: dict_set k v d.
Proof. intros Hne. simpl. by rewrite decide_False. Qed.

Lemma dict_lookup_set_other (k k' : str) (v : json) (d : dict) :
  k ≠ k' → dict_lookup k (dict_set k' v d) = dict_lookup k d.
Proof.
  intros Hne. induction d as [|[k0 v0] d IH]; simpl.
  - by rewrite decide_False.
  - destruct (decide (k0 = k')) as [-> | Hk0]; simpl.
    + by rewrite !decide_False.
    + destruct (decide (k0 = k)); [done | apply IH].
Qed.

Lemma dict_set_same (k : str) (v : json) (d : dict) :
  dict_lookup k d = Some v → dict_set k v d = d.
Proof.
  induction d as [|[k0 v0] d IH]; simpl; [done |].
  destruct (decide (k0 = k)) as [-> | Hk0].
  - by intros [= ->].
  - intros Hlookup. by rewrite IH.
Qed.

(** Assignments to two different keys commute when the first key is
    already present (an absent key would be appended: the order of the
    appends would show). *)
Lemma dict_set_commute (k1 k2 : str) (v1 v2 : json) (d : dict) :
  k1 ≠ k2 → is_Some (dict_lookup k1 d) →
  dict_set k2 v2 (dict_set k1 v1 d) = dict_set k1 v1 (dict_set k2 v2 d).
Proof.
  intros Hne. induction d as [|[k0 v0] d IH]; simpl.
  - by intros [? ?].
  - destruct (decide (k0 = k1)) as [-> | Hk1].
    + intros _. simpl. rewrite !decide_False by done. simpl. by rewrite decide_True.
    + intros Hsome. destruct (decide (k0 = k2)) as [-> | Hk2]; simpl.
      * by rewrite decide_True, decide_False.
      * by rewrite !decide_False, IH.
Qed.

Ltac dict_set_steps :=
  repeat first
    [ rewrite dict_set_head
    | rewrite dict_set_skip by lit_neq ].

Lemma agree_bind {A B : Type} (R : A → A → Prop) (S : B → B → Prop)
    (m1 m2 : result A) (f g : A → result B) :
  agree R m1 m2 →
  (∀ a b, R a b → agree S (f a) (g b)) →
  agree S (m1 ≫= f) (m2 ≫= g).
Proof.
  intros Hm Hfg. destruct m1 as [a|e1], m2 as [b|e2]; simpl in *; try done.
  by apply Hfg.
Qed.

Lemma agree_same {A : Type} (R : A → A → Prop) (m : result A) :
  (∀ a, R a a) → agree R m m.
Proof. intros Hrefl. destruct m; simpl; auto. Qed.

Lemma retimed_lookup (t1 t2 k : str) (d1 d2 : dict) :
  retimed t1 t2 d1 d2 → k ≠ lit "interaction_datetime" →
  dict_lookup k d2 = dict_lookup k d1.
Proof. intros [_ ->] Hne. by apply dict_lookup_set_other. Qed.

Lemma retimed_get (t1 t2 k : str) (dflt : json) (d1 d2 : dict) :
  retimed t1 t2 d1 d2 → k ≠ lit "interaction_datetime" →
  dict_get k dflt d2 = dict_get k dflt d1.
Proof. intros Hre Hne. unfold dict_get. by rewrite (retimed_lookup t1 t2 k d1 d2). Qed.

Lemma retimed_set (t1 t2 k : str) (v : json) (d1 d2 : dict) :
  retimed t1 t2 d1 d2 → k ≠ lit "interaction_datetime" →
  retimed t1 t2 (dict_set k v d1) (dict_set k v d2).
Proof.
  intros [Hheld ->] Hne. split.
  - by rewrite dict_lookup_set_other.
  - apply dict_set_commute; [done | by rewrite Hheld].
Qed.

Lemma retimed_truthy (t1 t2 : str) (d1 d2 : dict) :
  retimed t1 t2 d1 d2 → truthy (JObj d1) = true ∧ truthy (JObj d2) = true.
Proof.
  intros [Hheld ->]. destruct d1 as [|[k v] d1]; [discriminate |].
  split; [done |]. simpl. by destruct (decide (k = lit "interaction_datetime")).
Qed.

Lemma retimed_same (t : str) (d1 d2 : dict) : retimed t t d1 d2 → d2 = d1.
Proof. intros [Hheld ->]. by apply dict_set_same. Qed.

Section RerunFacts.
Context `{Runtime}.
Variables (GROQ_API_KEY GROQ_MODEL : str) (Groq : str → Completion).

Lemma node_extract_retimed (now1 now2 : datetime) (st : AgentState) :
  agree (retimed_state (isoformat now1) (isoformat now2))
    (node_extract GROQ_API_KEY GROQ_MODEL Groq now1 st)
    (node_extract GROQ_API_KEY GROQ_MODEL Groq now2 st).
Proof.
  unfold node_extract. destruct st as [tid um it ex co am].
  destruct (state_item (user_message _)) as [m|e]; [| done].
  cbn [mbind result_bind].
  destruct (tool_summarize_and_extract _ _ _ m) as [res|e]; [| done].
  cbn [mbind result_bind].
  destruct (py_get res (lit "entities") JNull) as [e|e]; [| done].
  cbn [mbind result_bind].
  destruct (py_get res (lit "summary") JNull) as [s|e']; [| done].
  cbn [mbind result_bind].
  destruct (py_or e (JObj [])) as [| | | | | |ents]; try done.
  cbn [mbind result_bind py_get agree].
  eexists _, _. split; [| split].
  2, 3: reflexivity.
  split.
  - by dict_steps.
  - by dict_set_steps.
Qed.

(** The draft the later nodes read in a state that holds one. *)
Lemma state_draft_held (st : AgentState) (d : dict) :
  extracted st = Some (JObj [(lit "draft", JObj d)]) →
  truthy (JObj d) = true →
  state_draft st = Ok (JObj d).
Proof.
  intros Hex Htruthy. unfold state_draft, state_get. rewrite Hex.
  cbn [default from_option id py_or truthy mbind result_bind py_get].
  rewrite dict_get_head. unfold py_or. by rewrite Htruthy.
Qed.

Lemma node_compliance_retimed (t1 t2 : str) (st1 st2 : AgentState) :
  retimed_state t1 t2 st1 st2 →
  agree (retimed_state t1 t2)
    (node_compliance GROQ_API_KEY GROQ_MODEL Groq st1)
    (node_compliance GROQ_API_KEY GROQ_MODEL Groq st2).
Proof.
  intros (d1 & d2 & Hre & Hex & ->).
  destruct (retimed_truthy _ _ _ _ Hre) as [Htruthy1 Htruthy2].
  unfold node_compliance.
  rewrite (state_draft_held st1 d1 Hex Htruthy1).
  rewrite (state_draft_held (set_extracted _ st1) d2 eq_refl Htruthy2).
  cbn [mbind result_bind py_get].
  rewrite !(retimed_get t1 t2 _ _ d1 d2 Hre) by lit_neq.
  destruct (tool_compliance_check_llm _ _ _ _) as [verdict|e]; [| done].
  destruct st1 as [tid um it ex co am]. simpl in Hex. subst ex.
  cbn [mbind result_bind py_setitem state_item extracted set_compliance set_extracted].
  rewrite !dict_set_head. cbn [agree].
  eexists _, _. split; [| split].
  2, 3: reflexivity.
  apply retimed_set; [done | lit_neq].
Qed.

Lemma node_respond_retimed (t1 t2 : str) (st1 st2 : AgentState) :
  retimed_state t1 t2 st1 st2 →
  agree (λ out1 out2,
           retimed_state t1 t2 out1 out2
           ∧ assistant_message out2 = assistant_message out1)
    (node_respond st1) (node_respond st2).
Proof.
  intros (d1 & d2 & Hre & Hex & ->).
  destruct (retimed_truthy _ _ _ _ Hre) as [Htruthy1 Htruthy2].
  unfold node_respond.
  rewrite (state_draft_held st1 d1 Hex Htruthy1).
  rewrite (state_draft_held (set_extracted _ st1) d2 eq_refl Htruthy2).
  cbn [mbind result_bind].
  rewrite (advisor_reads_channel_only d2 d1)
    by (apply (retimed_lookup t1 t2); [done | lit_neq]).
  destruct (tool_suggest_next_best_action (JObj d1)) as [r|e]; [| done].
  cbn [mbind result_bind].
  destruct (py_get r (lit "next_best_action") (JStr [])) as [nba|e]; [| done].
  cbn [mbind result_bind].
  replace (compliance (set_extracted (JObj [(lit "draft", JObj d2)]) st1))
    with (compliance st1) by (by destruct st1).
  destruct (py_get _ (lit "flags") JNull) as [f|e]; [| done].
  cbn [mbind result_bind].
  destruct (py_get _ (lit "severity") JNull) as [s|e]; [| done].
  cbn [mbind result_bind].
  destruct (if truthy (py_or f (JArr [])) && negb (eq_parse_error_list (py_or f (JArr [])))
            then _ else _) as [msg|e]; [| done].
  destruct st1 as [tid um it ex co am]. simpl in Hex. subst ex.
  cbn [mbind result_bind agree]. split; [| reflexivity].
  by exists d1, d2.
Qed.

(** C4 (as amended).  Two runs of the chat endpoint on the same request
    against the same deterministic service, the clock reading [now1] in
    one and [now2] in the other: either both raise the same exception, or
    both return, with the same assistant message and with drafts that are
    equal except for [interaction_datetime], which holds the clock reading
    of each run.  When the two readings print alike the runs are
    identical. *)
Theorem chat_rerun_differs_in_timestamp_only (now1 now2 : datetime) (req : ChatReq) :
  agree (retimed_response (isoformat now1) (isoformat now2))
    (agent_chat GROQ_API_KEY GROQ_MODEL Groq now1 req)
    (agent_chat GROQ_API_KEY GROQ_MODEL Groq now2 req)
  ∧ (isoformat now1 = isoformat now2 →
     agent_chat GROQ_API_KEY GROQ_MODEL Groq now1 req
     = agent_chat GROQ_API_KEY GROQ_MODEL Groq now2 req).
Proof.
  assert (agree (retimed_response (isoformat now1) (isoformat now2))
            (agent_chat GROQ_API_KEY GROQ_MODEL Groq now1 req)
            (agent_chat GROQ_API_KEY GROQ_MODEL Groq now2 req)) as Hagree.
  { unfold agent_chat, agent_app_invoke.
    destruct (node_route_intent _) as [st|e]; [| done].
    cbn [mbind result_bind].
    apply agree_bind
      with (R := λ out1 out2,
                   retimed_state (isoformat now1) (isoformat now2) out1 out2
                   ∧ assistant_message out2 = assistant_message out1).
    - eapply agree_bind; [apply node_extract_retimed |].
      intros st1 st2 Hst. eapply agree_bind; [by apply node_compliance_retimed |].
      intros st1' st2' Hst'. by apply node_respond_retimed.
    - intros out1 out2 [(d1 & d2 & Hre & Hex & ->) Hmsg].
      destruct (retimed_truthy _ _ _ _ Hre) as [Htruthy1 Htruthy2].
      destruct out1 as [tid um it ex co am]. simpl in Hex. subst ex.
      cbn [extracted set_extracted state_get default from_option id py_or truthy
           mbind result_bind py_get assistant_message].
      rewrite !dict_get_head. unfold py_or. rewrite Htruthy1, Htruthy2.
      cbn [agree]. by eexists _, d1, d2. }
  split; [exact Hagree |].
  intros Hsame. rewrite <- Hsame in Hagree.
  destruct (agent_chat _ _ _ now1 req) as [r1|e1], (agent_chat _ _ _ now2 req) as [r2|e2];
    simpl in Hagree; try done; [| by subst].
  destruct Hagree as (msg & d1 & d2 & Hre & -> & ->).
  by rewrite (retimed_same _ d1 d2 Hre).
Qed.

End RerunFacts.

(** C4 as stated fails: the same request, the same scripted service, two
    runs one second apart give drafts that differ. *)
Lemma chat_rerun_changes_draft :
  let req := {| req_thread_id := None; req_message := lit "Met Dr. Rao today" |} in
  let service := Demo.scripted_service Demo.sparse_extraction Demo.no_findings in
  ¬ rerun_identical
      (agent_chat Demo.api_key Demo.model_name service Demo.noon req)
      (agent_chat Demo.api_key Demo.model_name service Demo.one_past_noon req).
Proof.
  intros req service [Hdraft _]. vm_compute in Hdraft. discriminate Hdraft.
Qed.

(** The two drafts of that example, field by field. *)
Example chat_rerun_timestamps :
  let req := {| req_thread_id := None; req_message := lit "Met Dr. Rao today" |} in
  let service := Demo.scripted_service Demo.sparse_extraction Demo.no_findings in
  ∃ msg d1 d2,
    agent_chat Demo.api_key Demo.model_name service Demo.noon req
      = Ok (JObj [(lit "assistant_message", JStr msg); (lit "draft_interaction", JObj d1)])
    ∧ agent_chat Demo.api_key Demo.model_name service Demo.one_past_noon req
      = Ok (JObj [(lit "assistant_message", JStr msg); (lit "draft_interaction", JObj d2)])
    ∧ dict_lookup (lit "interaction_datetime") d1 = Some (JStr (lit "2024-03-05T12:00:00"))
    ∧ dict_lookup (lit "interaction_datetime") d2 = Some (JStr (lit "2024-03-05T12:00:01")).
Proof. intros req service. eexists _, _, _. repeat split; vm_compute; reflexivity. Qed.

(** ** Editing a stored interaction *)








Section EditFacts.
Context `{Runtime} `{Database}.
























(** C6.  When no row of the table has the identifier,
    [tool_edit_interaction] returns the not-found dict and the table is
    the one it was given; the endpoint raises [HTTPException(404)] over
    the same, unchanged table. *)
Theorem edit_unknown_id_writes_nothing
    (db : table) (i : Z) (patch : dict) (now : datetime) :
  Forall (λ row, Interaction.id row ≠ i) db →
  tool_edit_interaction db i patch now
    = (db, Ok (JObj [(lit "ok", JBool false); (lit "error", JStr (lit "not_found"))]))
  ∧ edit_interaction db i patch now
    = (db, Raise (HTTPException 404 (lit "Interaction not found"))).
Proof.
  intros Hnone.
  assert (query_first db i = None) as Hquery by (by apply list_find_None).
  assert (tool_edit_interaction db i patch now
          = (db, Ok (JObj [(lit "ok", JBool false); (lit "error", JStr (lit "not_found"))])))
    as Htool.
  { unfold tool_edit_interaction. by rewrite Hquery. }
  split; [exact Htool |].
  unfold edit_interaction. rewrite Htool.
  cbn [py_get mbind result_bind]. by rewrite dict_get_head.
Qed.

End EditFacts.


Lemma edit_unknown_id_writes_nothing_witness :
  tool_edit_interaction [Demo.visit_row] 8 [(lit "hcp_name", JStr (lit "Dr. Who"))] Demo.one_past_noon
    = ([Demo.visit_row],
       Ok (JObj [(lit "ok", JBool false); (lit "error", JStr (lit "not_found"))]))
  ∧ edit_interaction [Demo.visit_row] 8 [(lit "hcp_name", JStr (lit "Dr. Who"))] Demo.one_past_noon
    = ([Demo.visit_row], Raise (HTTPException 404 (lit "Interaction not found"))).
Proof.
  apply (edit_unknown_id_writes_nothing [Demo.visit_row] 8).
  constructor; [| constructor]. vm_compute. discriminate.
Defined.


(** The same store rejects a null for the timestamp: the code assigns the
    empty string to the [DateTime] column, the commit raises, and neither
    the patch nor the stamp of [updated_at] reaches the table. *)
Example edit_null_timestamp_raises :
  tool_edit_interaction [Demo.visit_row] 7
      [(lit "hcp_name", JNull); (lit "interaction_datetime", JNull)] Demo.one_past_noon
  = ([Demo.visit_row], Raise SQLAlchemyError).
Proof. vm_compute. reflexivity. Qed.

(** A number for a string column is stored as its text. *)
Example edit_number_stored_as_text :
  ∃ stored,
    tool_edit_interaction [Demo.visit_row] 7 [(lit "hcp_name", JInt 5)] Demo.one_past_noon
      = ([stored], Ok (JObj [(lit "ok", JBool true)]))
    ∧ Interaction.hcp_name stored = JStr (lit "5")
    ∧ Interaction.updated_at stored = Some Demo.one_past_noon.
Proof. eexists. split_and!; vm_compute; reflexivity. Qed.

(** A list cannot be written: the commit raises. *)
Example edit_list_raises :
  tool_edit_interaction [Demo.visit_row] 7 [(lit "hcp_name", JArr [JInt 1])] Demo.one_past_noon
  = ([Demo.visit_row], Raise SQLAlchemyError).
Proof. vm_compute. reflexivity. Qed.

(** * More of the pipeline *)

Lemma agree_bind_same {A B : Type} (S : B → B → Prop) (m : result A) (f g : A → result B) :
  (∀ a, agree S (f a) (g a)) → agree S (m ≫= f) (m ≫= g).
Proof. intros Hfg. destruct m as [a|e]; simpl; [apply Hfg | done]. Qed.

Lemma returns_bind {A B : Type} (P : A → Prop) (Q : B → Prop)
    (m : result A) (f : A → result B) :
  returns P m → (∀ a, P a → returns Q (f a)) → returns Q (m ≫= f).
Proof. intros Hm Hf. destruct m as [a|e]; simpl in *; [by apply Hf | done]. Qed.

Lemma returns_any {A B : Type} (Q : B → Prop) (m : result A) (f : A → result B) :
  (∀ a, returns Q (f a)) → returns Q (m ≫= f).
Proof. intros Hf. destruct m as [a|e]; simpl; [apply Hf | done]. Qed.

Ltac same_binds := repeat (apply agree_bind_same; intros ?).

(** ** The intent router *)

Section RouterFacts.
Context `{Runtime}.
Variables (GROQ_API_KEY GROQ_MODEL : str) (Groq : str → Completion).

(** The router on an ASCII message: it writes the intent and nothing else;
    the intent is ["edit"] exactly when the message, its letters lowered,
    holds "edit", "change" or "update" as a block of consecutive
    characters, and ["log"] otherwise. *)
Theorem route_intent_keywords (st : AgentState) (m : str) :
  user_message st = Some m →
  Forall is_ascii m →
  ∃ i,
    node_route_intent st = Ok (set_intent i st)
    ∧ (i = lit "edit" ∨ i = lit "log")
    ∧ (i = lit "edit" ↔
       ∃ keyword pre post,
         keyword ∈ [lit "edit"; lit "change"; lit "update"]
         ∧ ascii_lower <$> m = pre ++ keyword ++ post).
Proof.
  intros Hm Hascii. unfold node_route_intent. rewrite Hm.
  cbn [state_item mbind result_bind]. rewrite (py_lower_ascii m Hascii).
  set (text := ascii_lower <$> m).
  assert ((∃ keyword pre post,
             keyword ∈ [lit "edit"; lit "change"; lit "update"]
             ∧ text = pre ++ keyword ++ post)
          ↔ str_contains (lit "edit") text || str_contains (lit "change") text
            || str_contains (lit "update") text = true) as Hspec.
  { rewrite !orb_true_iff, !str_contains_spec. split.
    - intros (keyword & pre & post & Hin & Htext).
      rewrite !elem_of_cons, elem_of_nil in Hin.
      destruct Hin as [-> | [-> | [-> | []]]]; eauto 6.
    - intros [[(pre & post & Htext) | (pre & post & Htext)] | (pre & post & Htext)];
        eexists _, pre, post; (split; [| exact Htext]);
        rewrite !elem_of_cons; auto. }
  destruct (_ || _) eqn:Hfound.
  - exists (lit "edit"). split_and!; [done | by left |]. by rewrite Hspec.
  - exists (lit "log"). split_and!; [done | by right |]. rewrite Hspec.
    split; [intros E; vm_compute in E; discriminate E | done].
Qed.

(** Each node maps states with the same payload to outcomes with the same
    payload: none reads [thread_id] or [intent]. *)
Lemma node_route_intent_payload (st1 st2 : AgentState) :
  same_payload st1 st2 →
  agree same_payload (node_route_intent st1) (node_route_intent st2).
Proof.
  destruct st1, st2. intros (Hm & Hex & Hco & Ham). simpl in *. subst.
  unfold node_route_intent. cbn [user_message]. same_binds.
  destruct (_ || _); by repeat split.
Qed.

Lemma node_extract_payload (now : datetime) (st1 st2 : AgentState) :
  same_payload st1 st2 →
  agree same_payload
    (node_extract GROQ_API_KEY GROQ_MODEL Groq now st1)
    (node_extract GROQ_API_KEY GROQ_MODEL Groq now st2).
Proof.
  destruct st1, st2. intros (Hm & Hex & Hco & Ham). simpl in *. subst.
  unfold node_extract. cbn [user_message]. same_binds. by repeat split.
Qed.

Lemma node_compliance_payload (st1 st2 : AgentState) :
  same_payload st1 st2 →
  agree same_payload
    (node_compliance GROQ_API_KEY GROQ_MODEL Groq st1)
    (node_compliance GROQ_API_KEY GROQ_MODEL Groq st2).
Proof.
  destruct st1, st2. intros (Hm & Hex & Hco & Ham). simpl in *. subst.
  unfold node_compliance, state_draft. cbn [extracted set_compliance].
  same_binds. by repeat split.
Qed.

Lemma node_respond_payload (st1 st2 : AgentState) :
  same_payload st1 st2 →
  agree same_payload (node_respond st1) (node_respond st2).
Proof.
  destruct st1, st2. intros (Hm & Hex & Hco & Ham). simpl in *. subst.
  unfold node_respond, state_draft. cbn [extracted compliance].
  same_binds. by repeat split.
Qed.

(** The classification has no effect on the pipeline: the graph with the
    router and the three later nodes without it end alike, up to the
    [intent] key. *)
Theorem intent_does_not_steer (now : datetime) (st : AgentState) :
  agree same_payload
    (agent_app_invoke GROQ_API_KEY GROQ_MODEL Groq now st)
    (st ← node_extract GROQ_API_KEY GROQ_MODEL Groq now st;
     st ← node_compliance GROQ_API_KEY GROQ_MODEL Groq st;
     node_respond st).
Proof.
  unfold agent_app_invoke.
  assert (∀ a b, same_payload a b →
            agree same_payload
              (st ← node_extract GROQ_API_KEY GROQ_MODEL Groq now a;
               st ← node_compliance GROQ_API_KEY GROQ_MODEL Groq st;
               node_respond st)
              (st ← node_extract GROQ_API_KEY GROQ_MODEL Groq now b;
               st ← node_compliance GROQ_API_KEY GROQ_MODEL Groq st;
               node_respond st)) as Hrest.
  { intros a b Hab. eapply agree_bind; [by apply node_extract_payload |].
    intros a1 b1 Hab1. eapply agree_bind; [by apply node_compliance_payload |].
    intros a2 b2 Hab2. by apply node_respond_payload. }
  destruct (user_message st) as [m|] eqn:Hm.
  - destruct (node_route_intent_ok st m Hm) as [i ->].
    cbn [mbind result_bind]. apply Hrest. by destruct st.
  - unfold node_route_intent, node_extract. by rewrite Hm.
Qed.

(** The chat endpoint ignores [thread_id]: two requests with the same
    message, served at the same clock reading, get the same outcome. *)
Theorem chat_ignores_thread_id (now : datetime) (req1 req2 : ChatReq) :
  req_message req1 = req_message req2 →
  agent_chat GROQ_API_KEY GROQ_MODEL Groq now req1
  = agent_chat GROQ_API_KEY GROQ_MODEL Groq now req2.
Proof.
  intros Hmessage. unfold agent_chat. rewrite Hmessage.
  match goal with
  | |- mbind _ (agent_app_invoke _ _ _ _ ?st1) = mbind _ (agent_app_invoke _ _ _ _ ?st2) =>
      assert (agree same_payload
                (agent_app_invoke GROQ_API_KEY GROQ_MODEL Groq now st1)
                (agent_app_invoke GROQ_API_KEY GROQ_MODEL Groq now st2)) as Hagree
  end.
  { unfold agent_app_invoke.
    eapply agree_bind; [by apply node_route_intent_payload |].
    intros a b Hab. eapply agree_bind; [by apply node_extract_payload |].
    intros a1 b1 Hab1. eapply agree_bind; [by apply node_compliance_payload |].
    intros a2 b2 Hab2. by apply node_respond_payload. }
  destruct (agent_app_invoke _ _ _ _ _) as [out1|e1],
           (agent_app_invoke _ _ _ _ _) as [out2|e2]; simpl in Hagree; try done.
  - destruct Hagree as (_ & Hex & _ & Ham). cbn [mbind result_bind].
    by rewrite Hex, Ham.
  - by subst.
Qed.
End RouterFacts.

Lemma route_intent_keywords_witness :
  node_route_intent Demo.fresh_state = Ok (set_intent (lit "log") Demo.fresh_state).
Proof.
  assert (user_message Demo.fresh_state = Some (lit "Met Dr. Rao today")) as Hm by reflexivity.
  assert (Forall is_ascii (lit "Met Dr. Rao today")) as Hascii.
  { apply (bool_decide_unpack _). vm_compute. exact I. }
  destruct (route_intent_keywords Demo.fresh_state _ Hm Hascii) as (i & Hrun & [-> | ->] & Hiff).
  - exfalso. clear -Hrun. vm_compute in Hrun. discriminate Hrun.
  - exact Hrun.
Defined.

Lemma chat_ignores_thread_id_witness :
  agent_chat Demo.api_key Demo.model_name Demo.prose_service Demo.noon
    {| req_thread_id := Some (lit "visit-42"); req_message := lit "Met Dr. Rao today" |}
  = agent_chat Demo.api_key Demo.model_name Demo.prose_service Demo.noon
    {| req_thread_id := None; req_message := lit "Met Dr. Rao today" |}.
Proof. by apply chat_ignores_thread_id. Defined.


(** ** Degraded and failing runs *)

Section DegradedFacts.
Context `{Runtime}.
Variables (GROQ_API_KEY GROQ_MODEL : str) (Groq : str → Completion).

(** [node_extract] returns exactly on the extraction results it can read:
    a JSON value that is not an object, or whose entities entry is truthy
    and not an object, makes it raise [AttributeError], although the value
    parsed. *)
Theorem extract_needs_an_object (now : datetime) (st : AgentState) (m : str) (v : json) :
  user_message st = Some m →
  tool_summarize_and_extract GROQ_API_KEY GROQ_MODEL Groq m = Ok v →
  (extraction_readable v = true →
     ∃ draft, node_extract GROQ_API_KEY GROQ_MODEL Groq now st
              = Ok (set_extracted (JObj [(lit "draft", JObj draft)]) st))
  ∧ (extraction_readable v = false →
     node_extract GROQ_API_KEY GROQ_MODEL Groq now st = Raise AttributeError).
Proof.
  intros Hm Hv. unfold node_extract, extraction_readable.
  rewrite Hm. cbn [state_item mbind result_bind]. rewrite Hv.
  cbn [mbind result_bind].
  destruct v as [| | | | | |r]; try (split; [discriminate | reflexivity]).
  cbn [py_get mbind result_bind].
  destruct (py_or (dict_get (lit "entities") JNull r) (JObj [])) as [| | | | | |ents];
    try (split; [discriminate | reflexivity]).
  split; [intros _ | discriminate]. by eexists.
Qed.

(** The composer raises [TypeError], and composes no message, when the
    flags it reads are a non-empty list that holds an item other than a
    string. *)
Theorem respond_raises_on_non_string_flag
    (st : AgentState) (d c : dict) (items : list json) :
  state_draft st = Ok (JObj d) →
  channel_readable d = true →
  py_or (state_get (compliance st)) (JObj []) = JObj c →
  py_or (dict_get (lit "flags") JNull c) (JArr []) = JArr items →
  items ≠ [] →
  strings_of items = None →
  node_respond st = Raise TypeError.
Proof.
  intros Hdraft Hread Hc Hflags Hitems Hnone.
  destruct (advisor_returns_recommendation d Hread) as [nba [Hrun _]].
  unfold node_respond. rewrite Hdraft. cbn [mbind result_bind]. rewrite Hrun.
  cbn [mbind result_bind py_get]. rewrite dict_get_head, Hc.
  cbn [mbind result_bind py_get]. rewrite Hflags.
  assert (truthy (JArr items) = true) as -> by (by destruct items).
  assert (eq_parse_error_list (JArr items) = false) as ->.
  { destruct items as [|[] [|? ?]]; try done. }
  cbn [andb negb mbind result_bind py_join]. by rewrite Hnone.
Qed.

(** The state [node_extract] returns on a readable extraction result. *)
Lemma node_extract_on (now : datetime) (st : AgentState) (m : str) (res ents : dict) :
  user_message st = Some m →
  tool_summarize_and_extract GROQ_API_KEY GROQ_MODEL Groq m = Ok (JObj res) →
  py_or (dict_get (lit "entities") JNull res) (JObj []) = JObj ents →
  node_extract GROQ_API_KEY GROQ_MODEL Groq now st
  = Ok (set_extracted (JObj [(lit "draft", JObj [
      (lit "hcp_name", dict_get (lit "hcp_name") (JStr []) ents);
      (lit "specialty", dict_get (lit "specialty") (JStr []) ents);
      (lit "organization", dict_get (lit "organization") (JStr []) ents);
      (lit "interaction_datetime", JStr (isoformat now));
      (lit "channel",
       py_or (dict_get (lit "channel") (JStr (lit "in_person")) ents)
         (JStr (lit "in_person")));
      (lit "purpose", dict_get (lit "purpose") (JStr []) ents);
      (lit "products_discussed", dict_get (lit "products_discussed") (JStr []) ents);
      (lit "key_points", dict_get (lit "key_points") (JStr []) ents);
      (lit "outcome", dict_get (lit "outcome") (JStr []) ents);
      (lit "next_steps", dict_get (lit "next_steps") (JStr []) ents);
      (lit "follow_up_date", dict_get (lit "follow_up_date") (JStr []) ents);
      (lit "raw_notes", JStr m);
      (lit "ai_summary", py_or (dict_get (lit "summary") JNull res) (JStr []));
      (lit "ai_entities_json", JStr (json_dumps (JObj ents)));
      (lit "compliance_flags_json", JStr [])])]) st).
Proof.
  intros Hm Hres Hents. unfold node_extract.
  rewrite Hm. cbn [state_item mbind result_bind]. rewrite Hres.
  cbn [mbind result_bind py_get]. by rewrite Hents.
Qed.

(** The state [node_compliance] returns on a state that holds a draft. *)
Lemma node_compliance_on (st : AgentState) (d : dict) (verdict : json) :
  extracted st = Some (JObj [(lit "draft", JObj d)]) →
  truthy (JObj d) = true →
  tool_compliance_check_llm GROQ_API_KEY GROQ_MODEL Groq
    (format_value (dict_get (lit "raw_notes") (JStr []) d) ++ nl ++ lit "Summary: " ++
     format_value (dict_get (lit "ai_summary") (JStr []) d)) = Ok verdict →
  node_compliance GROQ_API_KEY GROQ_MODEL Groq st
  = Ok (set_extracted
          (JObj [(lit "draft",
                  JObj (dict_set (lit "compliance_flags_json")
                          (JStr (json_dumps verdict)) d))])
          (set_compliance verdict st)).
Proof.
  intros Hex Htruthy Hverdict. unfold node_compliance.
  rewrite (state_draft_held st d Hex Htruthy).
  cbn [mbind result_bind py_get]. rewrite Hverdict.
  destruct st as [tid um it ex co am]. simpl in Hex. subst ex.
  cbn [mbind result_bind py_setitem state_item extracted set_compliance].
  by rewrite dict_set_head.
Qed.

(** A service that never answers in JSON still gets the caller a full
    response: the draft has the first 180 characters of the message as its
    summary, empty entity fields, the default channel and the serialized
    parse-error verdict; the message recommends a visit and carries no
    compliance warning. *)
Theorem chat_degrades_without_json (now : datetime) (req : ChatReq) (out1 out2 : str) :
  let m := req_message req in
  groq_chat GROQ_API_KEY Groq extract_system (extract_prompt m) GROQ_MODEL = Ok out1 →
  json_loads out1 = None →
  groq_chat GROQ_API_KEY Groq compliance_system
    (compliance_prompt (m ++ nl ++ lit "Summary: " ++ take 180 m)) GROQ_MODEL = Ok out2 →
  json_loads out2 = None →
  agent_chat GROQ_API_KEY GROQ_MODEL Groq now req
  = Ok (JObj [
      (lit "assistant_message", JStr (msg_ack ++ msg_nba nba_visit ++ msg_save));
      (lit "draft_interaction", JObj [
         (lit "hcp_name", JStr []);
         (lit "specialty", JStr []);
         (lit "organization", JStr []);
         (lit "interaction_datetime", JStr (isoformat now));
         (lit "channel", JStr (lit "in_person"));
         (lit "purpose", JStr []);
         (lit "products_discussed", JStr []);
         (lit "key_points", JStr []);
         (lit "outcome", JStr []);
         (lit "next_steps", JStr []);
         (lit "follow_up_date", JStr []);
         (lit "raw_notes", JStr m);
         (lit "ai_summary", JStr (take 180 m));
         (lit "ai_entities_json", JStr (json_dumps (JObj [])));
         (lit "compliance_flags_json",
          JStr (json_dumps
                  (JObj [(lit "flags", JArr [JStr (lit "parse_error")]);
                         (lit "severity", JStr (lit "low"));
                         (lit "notes", JStr (take 400 out2))])))])])
  ∧ str_contains warning_marker (msg_ack ++ msg_nba nba_visit ++ msg_save) = false.
Proof.
  intros m Hreply1 Hparse1 Hreply2 Hparse2. split; [| by vm_compute].
  assert (py_or (JStr (take 180 m)) (JStr []) = JStr (take 180 m)) as Hsummary.
  { unfold py_or. cbn [truthy]. by case_bool_decide as Hnil; [rewrite Hnil |]. }
  unfold agent_chat, agent_app_invoke.
  match goal with
  | |- context [node_route_intent ?st] =>
      destruct (node_route_intent_ok st (req_message req) eq_refl) as [i ->]
  end.
  cbn [mbind result_bind].
  rewrite (node_extract_on now _ m
             [(lit "summary", JStr (take 180 m)); (lit "entities", JObj [])] []).
  2: reflexivity.
  2: { unfold tool_summarize_and_extract. rewrite Hreply1.
       cbn [mbind result_bind]. by rewrite Hparse1. }
  2: { unfold dict_get. by dict_steps. }
  cbn [mbind result_bind]. unfold dict_get at 1 2 3 4 5 6 7 8 9 10.
  cbn [dict_lookup default from_option id].
  unfold dict_get at 1. dict_steps. cbn [default from_option id]. rewrite Hsummary.
  replace (py_or (JStr (lit "in_person")) (JStr (lit "in_person")))
    with (JStr (lit "in_person")) by (by vm_compute).
  match goal with
  | |- context [node_compliance _ _ _ (set_extracted (JObj [(_, JObj ?d)]) ?st)] =>
      rewrite (node_compliance_on (set_extracted (JObj [(lit "draft", JObj d)]) st) d
                 (JObj [(lit "flags", JArr [JStr (lit "parse_error")]);
                        (lit "severity", JStr (lit "low"));
                        (lit "notes", JStr (take 400 out2))]))
  end.
  2: reflexivity.
  2: reflexivity.
  2: { unfold dict_get. dict_steps. cbn [default from_option id format_value].
       unfold tool_compliance_check_llm. rewrite Hreply2.
       cbn [mbind result_bind]. by rewrite Hparse2. }
  cbn [mbind result_bind]. dict_set_steps.
  match goal with
  | |- context [node_respond ?st] =>
      match st with
      | context [(lit "draft", JObj ?d)] =>
          rewrite (node_respond_message st d
                     [(lit "flags", JArr [JStr (lit "parse_error")]);
                      (lit "severity", JStr (lit "low"));
                      (lit "notes", JStr (take 400 out2))]
                     nba_visit [lit "parse_error"])
      end
  end.
  2: { apply state_draft_held; reflexivity. }
  2: { unfold tool_suggest_next_best_action. cbn [py_get mbind result_bind].
       unfold dict_get. dict_steps. cbn [default from_option id].
       replace (py_or (JStr (lit "in_person")) (JStr []))
         with (JStr (lit "in_person")) by (by vm_compute).
       cbn [method_lower mbind result_bind].
       rewrite py_lower_ascii by (apply (bool_decide_unpack _); by vm_compute).
       rewrite bool_decide_eq_false_2; [done |].
       rewrite !elem_of_cons, elem_of_nil.
       intros [E | [E | []]]; vm_compute in E; discriminate E. }
  2: reflexivity.
  2: { unfold dict_get. by dict_steps. }
  rewrite (bool_decide_eq_true_2 ([lit "parse_error"] = [lit "parse_error"])) by done.
  rewrite orb_true_r.
  cbn [mbind result_bind set_assistant_message set_extracted set_compliance set_intent
       extracted assistant_message state_get default from_option id py_or truthy py_get].
  dict_steps. cbn [py_or truthy default from_option id]. by rewrite <- app_assoc.
Qed.
End DegradedFacts.


Lemma extract_needs_an_object_witness :
  node_extract Demo.api_key Demo.model_name
    (Demo.scripted_service (JArr [JStr (lit "Met Dr. Rao")]) Demo.no_findings)
    Demo.noon Demo.fresh_state
  = Raise AttributeError.
Proof.
  assert (user_message Demo.fresh_state = Some (lit "Met Dr. Rao today")) as Hm
    by reflexivity.
  assert (tool_summarize_and_extract Demo.api_key Demo.model_name
            (Demo.scripted_service (JArr [JStr (lit "Met Dr. Rao")]) Demo.no_findings)
            (lit "Met Dr. Rao today")
          = Ok (JArr [JStr (lit "Met Dr. Rao")])) as Hv.
  { vm_compute. reflexivity. }
  destruct (extract_needs_an_object Demo.api_key Demo.model_name _ Demo.noon
              Demo.fresh_state _ _ Hm Hv) as [_ Hraise].
  apply Hraise. reflexivity.
Defined.

Lemma respond_raises_on_non_string_flag_witness :
  node_respond
    (set_compliance
       (JObj [(lit "flags", JArr [JStr (lit "off_label"); JNull]);
              (lit "severity", JStr (lit "low"))])
       Demo.flagged_state)
  = Raise TypeError.
Proof.
  apply (respond_raises_on_non_string_flag _ Demo.email_draft
           [(lit "flags", JArr [JStr (lit "off_label"); JNull]);
            (lit "severity", JStr (lit "low"))]
           [JStr (lit "off_label"); JNull]).
  - vm_compute. reflexivity.
  - vm_compute. reflexivity.
  - vm_compute. reflexivity.
  - vm_compute. reflexivity.
  - discriminate.
  - reflexivity.
Defined.

Lemma chat_degrades_without_json_witness :
  ∃ draft,
    agent_chat Demo.api_key Demo.model_name Demo.prose_service Demo.noon
      {| req_thread_id := None; req_message := lit "Met Dr. Rao today" |}
    = Ok (JObj [(lit "assistant_message", JStr (msg_ack ++ msg_nba nba_visit ++ msg_save));
                (lit "draft_interaction", JObj draft)])
    ∧ dict_lookup (lit "ai_summary") draft = Some (JStr (lit "Met Dr. Rao today")).
Proof.
  destruct (chat_degrades_without_json Demo.api_key Demo.model_name Demo.prose_service
              Demo.noon {| req_thread_id := None; req_message := lit "Met Dr. Rao today" |}
              (lit "Sorry, I can only answer in plain words.")
              (lit "Sorry, I can only answer in plain words.")) as [Hrun _].
  - reflexivity.
  - vm_compute. reflexivity.
  - reflexivity.
  - vm_compute. reflexivity.
  - eexists. split; [exact Hrun |]. vm_compute. reflexivity.
Defined.

Lemma extract_copies_present_entity_witness :
  ∃ draft,
    node_extract Demo.api_key Demo.model_name
        (Demo.scripted_service Demo.sparse_extraction Demo.no_findings)
        Demo.noon Demo.fresh_state
      = Ok (set_extracted (JObj [(lit "draft", JObj draft)]) Demo.fresh_state)
    ∧ dict_lookup (lit "organization") draft = Some JNull.
Proof.
  apply (extract_copies_present_entity Demo.api_key Demo.model_name
           (Demo.scripted_service Demo.sparse_extraction Demo.no_findings)
           Demo.noon Demo.fresh_state (lit "Met Dr. Rao today")
           [(lit "summary", JStr (lit "Met Dr. Rao"));
            (lit "entities", JObj Demo.sparse_entities)]
           Demo.sparse_entities (lit "organization") JNull).
  - reflexivity.
  - vm_compute. reflexivity.
  - vm_compute. reflexivity.
  - unfold entity_fields. rewrite !elem_of_cons. tauto.
  - vm_compute. reflexivity.
Defined.

(** ** The draft through the pipeline *)

Lemma dict_lookup_set_same (k : str) (v : json) (d : dict) :
  dict_lookup k (dict_set k v d) = Some v.
Proof.
  induction d as [|[k0 v0] d IH]; simpl.
  - by rewrite decide_True.
  - destruct (decide (k0 = k)) as [-> | Hk0]; simpl.
    + by rewrite decide_True.
    + by rewrite decide_False.
Qed.

(** Assigning to a key that is present keeps the keys and their order. *)
Lemma dict_set_keys (k : str) (v : json) (d : dict) :
  k ∈ d.*1 → (dict_set k v d).*1 = d.*1.
Proof.
  induction d as [|[k0 v0] d IH]; [by intros ?%elem_of_nil |].
  rewrite fmap_cons. cbn [fst dict_set].
  destruct (decide (k0 = k)) as [-> | Hk0]; [done |].
  intros [? | Hin]%elem_of_cons; [congruence |].
  rewrite fmap_cons. cbn [fst]. by rewrite IH.
Qed.

Section DraftFacts.
Context `{Runtime}.
Variables (GROQ_API_KEY GROQ_MODEL : str) (Groq : str → Completion).

(** When the service returns no content, the reply is the empty string;
    [json.loads] rejects it, and extraction falls back to the prefix of
    the text. *)
Theorem extract_falls_back_on_empty_content (text : str) :
  GROQ_API_KEY ≠ [] →
  Groq GROQ_API_KEY GROQ_MODEL extract_system (extract_prompt text) = Ok None →
  json_loads [] = None →
  tool_summarize_and_extract GROQ_API_KEY GROQ_MODEL Groq text
  = Ok (JObj [(lit "summary", JStr (take 180 text)); (lit "entities", JObj [])]).
Proof.
  intros Hkey Hcontent Hloads. unfold tool_summarize_and_extract.
  rewrite (groq_chat_configured GROQ_API_KEY Groq _ _ _ Hkey), Hcontent.
  cbn [mbind result_bind default from_option id]. by rewrite Hloads.
Qed.

(** The compliance node on a state that holds a draft: it sends the raw
    notes and the summary, stores the verdict in the state, and writes the
    serialized verdict over [compliance_flags_json], whatever that field
    held; every other field of the draft is the one it was. *)
Theorem compliance_overwrites_flags_only (st : AgentState) (d : dict) :
  extracted st = Some (JObj [(lit "draft", JObj d)]) →
  truthy (JObj d) = true →
  ∃ text,
    text = format_value (dict_get (lit "raw_notes") (JStr []) d) ++ nl ++
           lit "Summary: " ++ format_value (dict_get (lit "ai_summary") (JStr []) d)
    ∧ match tool_compliance_check_llm GROQ_API_KEY GROQ_MODEL Groq text with
      | Raise e => node_compliance GROQ_API_KEY GROQ_MODEL Groq st = Raise e
      | Ok verdict =>
          ∃ d',
            node_compliance GROQ_API_KEY GROQ_MODEL Groq st
              = Ok (set_extracted (JObj [(lit "draft", JObj d')]) (set_compliance verdict st))
            ∧ dict_lookup (lit "compliance_flags_json") d' = Some (JStr (json_dumps verdict))
            ∧ ∀ k, k ≠ lit "compliance_flags_json" → dict_lookup k d' = dict_lookup k d
      end.
Proof.
  intros Hex Htruthy. eexists. split; [reflexivity |].
  destruct (tool_compliance_check_llm _ _ _ _) as [verdict|e] eqn:Hverdict.
  - eexists. split; [by apply node_compliance_on | split].
    + apply dict_lookup_set_same.
    + intros k Hk. by apply dict_lookup_set_other.
  - unfold node_compliance. rewrite (state_draft_held st d Hex Htruthy).
    cbn [mbind result_bind py_get]. by rewrite Hverdict.
Qed.

Lemma node_extract_full_draft (now : datetime) (st : AgentState) :
  returns holds_full_draft (node_extract GROQ_API_KEY GROQ_MODEL Groq now st).
Proof.
  unfold node_extract. destruct st as [tid um it ex co am].
  do 4 (apply returns_any; intros ?).
  destruct (py_or _ (JObj [])) as [| | | | | |ents]; try done.
  cbn [mbind result_bind py_get returns]. by eexists.
Qed.

Lemma node_compliance_full_draft (st : AgentState) :
  holds_full_draft st →
  returns holds_full_draft (node_compliance GROQ_API_KEY GROQ_MODEL Groq st).
Proof.
  intros (d & Hex & Hkeys).
  assert (truthy (JObj d) = true) as Htruthy by (by destruct d).
  destruct (tool_compliance_check_llm GROQ_API_KEY GROQ_MODEL Groq
              (format_value (dict_get (lit "raw_notes") (JStr []) d) ++ nl ++
               lit "Summary: " ++ format_value (dict_get (lit "ai_summary") (JStr []) d)))
    as [verdict|e] eqn:Hverdict.
  - rewrite (node_compliance_on _ _ _ st d verdict Hex Htruthy Hverdict). cbn [returns].
    eexists. split; [reflexivity |]. rewrite dict_set_keys; [done |].
    rewrite Hkeys. apply (bool_decide_unpack _). by vm_compute.
  - unfold node_compliance. rewrite (state_draft_held st d Hex Htruthy).
    cbn [mbind result_bind py_get]. by rewrite Hverdict.
Qed.

End DraftFacts.

Lemma app_between {A : Type} (a b c d : list A) :
  ((a ++ b) ++ c) ++ d = a ++ (b ++ c) ++ d.
Proof. by rewrite <- !app_assoc. Qed.

Section ResponseFacts.
Context `{Runtime}.
Variables (GROQ_API_KEY GROQ_MODEL : str) (Groq : str → Completion).

Lemma node_respond_full_draft (st : AgentState) :
  holds_full_draft st →
  returns (λ out, holds_full_draft out
                  ∧ ∃ body, assistant_message out = Some (msg_ack ++ body ++ msg_save))
    (node_respond st).
Proof.
  intros (d & Hex & Hkeys). destruct st as [tid um it ex co am]. simpl in Hex. subst ex.
  unfold node_respond.
  apply returns_any; intros draft. apply returns_any; intros r.
  apply returns_any; intros nba. apply returns_any; intros f.
  apply returns_any; intros s.
  match goal with |- context [if ?c then _ else _] => destruct c end.
  - destruct (py_join _ _) as [joined|e]; cbn [mbind result_bind returns]; [| done].
    split; [by exists d |].
    eexists (_ ++ _). cbn [assistant_message set_assistant_message]. f_equal;
      apply app_between.
  - cbn [mbind result_bind returns]. split; [by exists d |].
    eexists. cbn [assistant_message set_assistant_message]. f_equal;
      symmetry; apply app_assoc.
Qed.

(** Whenever the chat endpoint returns, the response has a draft with
    exactly the fifteen keys that the edit operation accepts, in the same
    order, and an assistant message that opens with the acknowledgment line
    and closes with the instruction to save. *)
Theorem chat_response_shape (now : datetime) (req : ChatReq) :
  returns
    (λ response,
       ∃ msg body draft,
         response = JObj [(lit "assistant_message", JStr msg);
                          (lit "draft_interaction", JObj draft)]
         ∧ draft.*1 = allowed
         ∧ msg = msg_ack ++ body ++ msg_save)
    (agent_chat GROQ_API_KEY GROQ_MODEL Groq now req).
Proof.
  unfold agent_chat, agent_app_invoke.
  eapply returns_bind.
  - apply returns_any. intros st0.
    eapply returns_bind; [apply node_extract_full_draft |].
    intros st1 Hst1. eapply returns_bind; [by apply node_compliance_full_draft |].
    intros st2 Hst2. by apply node_respond_full_draft.
  - intros out [(d & Hex & Hkeys) [body Hmsg]].
    assert (truthy (JObj d) = true) as Htruthy by (by destruct d).
    rewrite Hex, Hmsg.
    cbn [state_get default from_option id py_or truthy mbind result_bind py_get returns].
    rewrite dict_get_head. unfold py_or. rewrite Htruthy. by eexists _, body, d.
Qed.
End ResponseFacts.

Lemma extract_falls_back_on_empty_content_witness :
  tool_summarize_and_extract Demo.api_key Demo.model_name (λ _ _ _ _, Ok None)
    (lit "Met Dr. Rao today")
  = Ok (JObj [(lit "summary", JStr (take 180 (lit "Met Dr. Rao today")));
              (lit "entities", JObj [])]).
Proof.
  apply extract_falls_back_on_empty_content.
  - discriminate.
  - reflexivity.
  - vm_compute. reflexivity.
Defined.

Lemma compliance_overwrites_flags_only_witness :
  ∃ d',
    node_compliance Demo.api_key Demo.model_name Demo.prose_service Demo.flagged_state
      = Ok (set_extracted (JObj [(lit "draft", JObj d')])
              (set_compliance
                 (JObj [(lit "flags", JArr [JStr (lit "parse_error")]);
                        (lit "severity", JStr (lit "low"));
                        (lit "notes", JStr (lit "Sorry, I can only answer in plain words."))])
                 Demo.flagged_state))
    ∧ dict_lookup (lit "channel") d' = Some (JStr (lit "email")).
Proof.
  destruct (compliance_overwrites_flags_only Demo.api_key Demo.model_name
              Demo.prose_service Demo.flagged_state Demo.email_draft)
    as (text & Htext & Hrun).
  - reflexivity.
  - reflexivity.
  - assert (tool_compliance_check_llm Demo.api_key Demo.model_name Demo.prose_service text
            = Ok (JObj [(lit "flags", JArr [JStr (lit "parse_error")]);
                        (lit "severity", JStr (lit "low"));
                        (lit "notes",
                         JStr (lit "Sorry, I can only answer in plain words."))]))
      as Hverdict.
    { rewrite Htext. vm_compute. reflexivity. }
    rewrite Hverdict in Hrun. destruct Hrun as (d' & Hnode & _ & Hframe).
    exists d'. split; [exact Hnode |].
    rewrite Hframe by lit_neq. vm_compute. reflexivity.
Defined.
